(** * circadian-timer: the sun schedule component, embedded in Rocq

    The repository holds one React component, [SunSchedule], in two
    variants:

    - [src/src/SunSchedule.tsx], the basic variant (module [Basic]);
    - [src/unnamed/part_000], the variant that remembers the last postal
      code in [localStorage] and also shows a toddler bedtime (module
      [Persisted]).

    The embedding is shallow.  A [Date] is its time value in milliseconds
    (or the invalid date), the component state is a record, and every
    handler is a computation in a small writer-and-exception monad whose
    log lists, in program order, the state setters called and the requests
    made to the outside world.  The outside world (the two web services,
    device geolocation, the host's string-to-number and string-to-date
    parsers) is an explicit environment record. *)

From Stdlib Require Import ZArith QArith Lia Bool String Ascii List SpecFloat.
From stdpp Require Import base option list strings gmap.

Local Open Scope string_scope.
Local Open Scope list_scope.
Local Open Scope Z_scope.

(** ** ECMAScript dates *)

Module JsDate.

(** A Number holding a time value: an integral number of milliseconds, or
    NaN ([None]).  All time values that occur below have magnitude at most
    8.64e15 + 39.6e6 < 2^53, where binary64 addition and subtraction of
    integers are exact, so [Z] arithmetic is what the doubles compute. *)
Definition TimeValue : Type := option Z.

(** The largest magnitude a Date can hold: 100,000,000 days. *)
Definition maxTime : Z := 8640000000000000.

(** ECMA-262 TimeClip: a time value outside the range becomes NaN. *)
Definition TimeClip (tv : TimeValue) : TimeValue :=
  match tv with
  | Some t => if Z.abs t <=? maxTime then Some t else None
  | None => None
  end.

Record Date : Type := mkDate { getTime : TimeValue }.

(** [new Date(value)]: the time value of [value], clipped.  For a Number
    argument the time value is the argument; for a string argument it is
    what the host's parser makes of it ([Date_parse] of the environment
    below). *)
Definition new_Date (tv : TimeValue) : Date := mkDate (TimeClip tv).

(** The date of the instant [t] milliseconds after the epoch. *)
Definition instant (t : Z) : Date := new_Date (Some t).

(** [x.getTime() - k] and [x.getTime() + k] for a finite constant [k]. *)
Definition minus (tv : TimeValue) (k : Z) : TimeValue := (fun t => t - k) <$> tv.
Definition plus (tv : TimeValue) (k : Z) : TimeValue := (fun t => t + k) <$> tv.

(** [a < b] on dates compares the time values; any comparison with NaN is
    false. *)
Definition ltb (a b : Date) : bool :=
  match getTime a, getTime b with
  | Some x, Some y => x <? y
  | _, _ => false
  end.

(** The dates the constructor can produce. *)
Definition wf (d : Date) : Prop :=
  match getTime d with
  | Some t => - maxTime <= t <= maxTime
  | None => True
  end.

(** ECMA-262 day number and time within the day of a time value (UTC). *)
Definition msPerMinute : Z := 60000.
Definition msPerHour : Z := 3600000.
Definition msPerDay : Z := 86400000.
Definition Day (t : Z) : Z := t / msPerDay.
Definition HourFromTime (t : Z) : Z := (t / msPerHour) mod 24.
Definition MinFromTime (t : Z) : Z := (t / msPerMinute) mod 60.

(** The time value that the UTC wall clock shows as day [d], [h]:[m], with
    [r] further milliseconds (seconds and fraction). *)
Definition at_clock (d h m r : Z) : Z :=
  d * msPerDay + h * msPerHour + m * msPerMinute + r.

End JsDate.

Abbreviation Date := JsDate.Date.
Abbreviation getTime := JsDate.getTime.
Abbreviation new_Date := JsDate.new_Date.

(** The literal [2.5 * 60 * 60000] of both variants, as the exact rational
    it denotes; [bedtime_offset] is its value, which the doubles compute
    without rounding (2.5, 150 and 9000000 are all representable). *)
Definition bedtime_offset_literal : Q := (5 # 2) * 60 * 60000.
Definition bedtime_offset : Z := 9000000.

(** ** The outside world *)

(** Latitudes and longitudes are binary64 Numbers; the component only
    passes them from one service to the next. *)
Definition Number : Type := spec_float.

(** The JSON bodies, as the TypeScript types [ZipResponse] and
    [SunResponse] declare them.  The basic variant declares (and reads)
    only the first two fields of a place. *)
Module ZipApi.
Record Place : Type := mkPlace {
  latitude : string;
  longitude : string;
  place_name : string;
  state : string
}.
Record Response : Type := mkResponse { places : option (list Place) }.
End ZipApi.

Module SunApi.
Record Results : Type := mkResults { sunrise : string; sunset : string }.
Record Response : Type := mkResponse { status : string; results : Results }.
End SunApi.

(** What [await fetch(url)] followed by [await response.json()] comes to:
    the fetch rejects, the body is not JSON, or a value arrives. *)
Inductive Fetched (A : Type) : Type :=
| Rejected
| NotJson
| Json (data : A).
Arguments Rejected {A}.
Arguments NotJson {A}.
Arguments Json {A} data.

(** [navigator.geolocation.getCurrentPosition]: the success callback with
    coordinates, or the error callback. *)
Inductive GeoOutcome : Type :=
| Position (latitude longitude : Number)
| PositionError.

Record Env : Type := mkEnv {
  zip_service : string -> Fetched ZipApi.Response;
  sun_service : Number -> Number -> Fetched SunApi.Response;
  geolocation : GeoOutcome;
  parseFloat : string -> Number;
  Date_parse : string -> JsDate.TimeValue
}.

(** ** Handlers as computations *)

(** A thrown value: an [Error] with its message, or anything else. *)
Inductive Exn : Type :=
| Error (message : string)
| NonError.

(** A computation logs events of type [E] and then either throws or
    returns.  The answers of the outside world come from the environment,
    so a computation always completes: a request that never settles is not
    modelled. *)
Definition M (E A : Type) : Type := list E * (Exn + A).

#[global] Instance M_ret {E} : MRet (M E) :=
  fun A a => ([], inr a).

#[global] Instance M_bind {E} : MBind (M E) :=
  fun A B k m =>
    match m with
    | (l, inl e) => (l, inl e)
    | (l, inr a) => let '(l', r) := k a in (l ++ l', r)
    end.

Definition emit {E} (e : E) : M E unit := ([e], inr tt).

Definition throw {E A} (e : Exn) : M E A := ([], inl e).

(** [try { m } catch (err) { h err }] *)
Definition try_catch {E A} (m : M E A) (h : Exn -> M E A) : M E A :=
  match m with
  | (l, inl e) => let '(l', r) := h e in (l ++ l', r)
  | (l, inr a) => (l, inr a)
  end.

(** [try { m } finally { f }] *)
Definition try_finally {E A} (m : M E A) (f : M E unit) : M E A :=
  let '(l, r) := m in
  match f with
  | (l', inl e) => (l ++ l', inl e)
  | (l', inr _) => (l ++ l', r)
  end.

(** Awaiting the response and its JSON body: both failures throw an
    [Error] (a TypeError and a SyntaxError, whose messages are the
    host's). *)
Definition await_json {E A} (r : Fetched A) : M E A :=
  match r with
  | Rejected => throw (Error "Failed to fetch")
  | NotJson => throw (Error "Unexpected token")
  | Json data => mret data
  end.

(** [err instanceof Error ? err.message : 'An error occurred'] *)
Definition message_of (err : Exn) : string :=
  match err with
  | Error message => message
  | NonError => "An error occurred"
  end.

Definition events {E A} (m : M E A) : list E := fst m.
Definition outcome {E A} (m : M E A) : Exn + A := snd m.

(** JavaScript truthiness of a [string | null] (or [string | undefined]). *)
Definition truthy (s : option string) : bool :=
  match s with
  | Some EmptyString | None => false
  | Some (String _ _) => true
  end.

(** [a || b] for a [string | undefined] and a string. *)
Definition js_or (a : option string) (b : string) : string :=
  if truthy a then default b a else b.

(** The [pattern="[0-9]{5}"] attribute of the input: the whole value must
    match.  A form whose text input violates its pattern does not fire the
    submit event; the empty value is exempt from the pattern. *)
Definition is_digit (c : ascii) : bool :=
  (48 <=? Z.of_nat (nat_of_ascii c)) && (Z.of_nat (nat_of_ascii c) <=? 57).

Definition matches_pattern (value : string) : bool :=
  (Z.of_nat (String.length value) =? 5) && forallb is_digit (list_ascii_of_string value).

Definition satisfies_constraints (value : string) : bool :=
  match value with
  | EmptyString => true
  | _ => matches_pattern value
  end.

(** ** The basic variant: src/src/SunSchedule.tsx *)

Module Basic.

Record Schedule : Type := mkSchedule {
  wakeTime : Date;
  civilDawn : Date;
  sunrise : Date;
  sunset : Date;
  civilDusk : Date;
  bedTime : Date
}.

(** The [useState] cells of the component. *)
Record State : Type := mkState {
  schedule : option Schedule;
  loading : bool;
  error : option string;
  zipCode : string;
  useZipCode : bool
}.

Definition initial : State :=
  {| schedule := None; loading := true; error := None; zipCode := ""; useZipCode := false |}.

(** The setters a handler calls and the requests it makes. *)
Inductive Event : Type :=
| SetSchedule (s : Schedule)
| SetLoading (b : bool)
| SetError (e : option string)
| SetZipCode (z : string)
| SetUseZipCode (b : bool)
| GeolocationRequest
| ZipRequest (zip : string)
| SunRequest (latitude longitude : Number).

Definition apply (st : State) (ev : Event) : State :=
  match ev with
  | SetSchedule s =>
      {| schedule := Some s; loading := loading st; error := error st;
         zipCode := zipCode st; useZipCode := useZipCode st |}
  | SetLoading b =>
      {| schedule := schedule st; loading := b; error := error st;
         zipCode := zipCode st; useZipCode := useZipCode st |}
  | SetError e =>
      {| schedule := schedule st; loading := loading st; error := e;
         zipCode := zipCode st; useZipCode := useZipCode st |}
  | SetZipCode z =>
      {| schedule := schedule st; loading := loading st; error := error st;
         zipCode := z; useZipCode := useZipCode st |}
  | SetUseZipCode b =>
      {| schedule := schedule st; loading := loading st; error := error st;
         zipCode := zipCode st; useZipCode := b |}
  | GeolocationRequest | ZipRequest _ | SunRequest _ _ => st
  end.

(** The state after the events of a handler, applied in program order. *)
Definition run (st : State) (evs : list Event) : State := foldl apply st evs.

(** The object handed to [setSchedule]: the constants of the
    [data.status === 'OK'] branch of [fetchSunData], from the two parsed
    dates on. *)
Definition deriveSchedule (sunriseTime sunsetTime : Date) : Schedule :=
  let civilDawn := new_Date (JsDate.minus (getTime sunriseTime) (35 * 60000)) in
  let civilDusk := new_Date (JsDate.plus (getTime sunsetTime) (35 * 60000)) in
  let wakeTime := new_Date (JsDate.minus (getTime civilDawn) (45 * 60000)) in
  let bedTime := new_Date (JsDate.plus (getTime sunsetTime) bedtime_offset) in
  {| wakeTime := wakeTime;
     civilDawn := civilDawn;
     sunrise := sunriseTime;
     sunset := sunsetTime;
     civilDusk := civilDusk;
     bedTime := bedTime |}.

Definition fetchZipCodeLocation (env : Env) (zip : string) : M Event (Number * Number) :=
  try_catch
    (emit (ZipRequest zip);;
     data ← await_json (zip_service env zip);
     match ZipApi.places data with
     | None | Some [] => throw (Error "Invalid zip code")
     | Some (place :: _) =>
         mret (parseFloat env (ZipApi.latitude place),
               parseFloat env (ZipApi.longitude place))
     end)
    (fun err => throw (Error "Invalid zip code. Please try again.")).

Definition fetchSunData (env : Env) (latitude longitude : Number) : M Event unit :=
  try_catch
    (emit (SunRequest latitude longitude);;
     data ← await_json (sun_service env latitude longitude);
     if String.eqb (SunApi.status data) "OK" then
       let sunriseTime := new_Date (Date_parse env (SunApi.sunrise (SunApi.results data))) in
       let sunsetTime := new_Date (Date_parse env (SunApi.sunset (SunApi.results data))) in
       emit (SetSchedule (deriveSchedule sunriseTime sunsetTime));;
       emit (SetError None)
     else mret tt)
    (fun err => throw (Error "Failed to fetch sun data. Please try again.")).

(** [zipCode] is the value the handler's closure captured at render
    time.  ([e.preventDefault()] touches only the browser's form
    handling.) *)
Definition handleZipCodeSubmit (env : Env) (zipCode : string) : M Event unit :=
  emit (SetLoading true);;
  try_finally
    (try_catch
       ('(latitude, longitude) ← fetchZipCodeLocation env zipCode;
        fetchSunData env latitude longitude)
       (fun err => emit (SetError (Some (message_of err)))))
    (emit (SetLoading false)).

(** The function the mount effect defines and calls. *)
Definition getLocationAndSunData (env : Env) : M Event unit :=
  try_finally
    (try_catch
       (emit GeolocationRequest;;
        '(latitude, longitude) ←
          match geolocation env with
          | Position latitude longitude => mret (latitude, longitude)
          | PositionError =>
              throw (Error "Location access denied. Please enter your zip code.")
          end;
        fetchSunData env latitude longitude)
       (fun err => emit (SetError (Some (message_of err)));; emit (SetUseZipCode true)))
    (emit (SetLoading false)).

Definition useEffect (env : Env) : M Event unit := getLocationAndSunData env.

(** What the render function shows. *)
Definition showsLoadingCard (st : State) : bool := loading st && negb (useZipCode st).
Definition showsForm (st : State) : bool := truthy (error st) || useZipCode st.

(** The [disabled] attribute of the submit button. *)
Definition submitDisabled (st : State) : bool :=
  loading st || negb (Z.of_nat (String.length (zipCode st)) =? 5).

(** Pressing the button fires the form's submit event when the button is
    enabled and the input satisfies its pattern. *)
Definition canSubmit (st : State) : bool :=
  negb (submitDisabled st) && satisfies_constraints (zipCode st).

(** What the render function returns, up to markup.  The loading card
    stands alone; otherwise the panel holds the form (if shown) and the
    schedule rows (if a schedule is present).  [formatTime], whose output
    is the host locale's, is applied to each date of the rows; the rows
    keep the dates. *)
Record FormView : Type := mkForm {
  input_value : string;
  submit_disabled : bool;
  alert : option string
}.

Inductive View : Type :=
| LoadingCard
| Panel (form : option FormView) (rows : option Schedule).

Definition render (st : State) : View :=
  if loading st && negb (useZipCode st) then LoadingCard
  else
    Panel
      (if truthy (error st) || useZipCode st then
         Some {| input_value := zipCode st;
                 submit_disabled := submitDisabled st;
                 alert := if truthy (error st) then error st else None |}
       else None)
      (schedule st).

End Basic.

(** ** The persisted variant: src/unnamed/part_000 *)

Module Persisted.

Record Schedule : Type := mkSchedule {
  wakeTime : Date;
  civilDawn : Date;
  sunrise : Date;
  sunset : Date;
  civilDusk : Date;
  toddlerBedTime : Date;
  adultBedTime : Date
}.

Definition ZIP_STORAGE_KEY : string := "lastUsedZipCode".

(** The [useState] cells of the component, and the origin's
    [localStorage]. *)
Record State : Type := mkState {
  schedule : option Schedule;
  loading : bool;
  error : option string;
  zipCode : string;
  useZipCode : bool;
  location : string;
  localStorage : gmap string string
}.

Definition initial (storage : gmap string string) : State :=
  {| schedule := None; loading := true; error := None; zipCode := "";
     useZipCode := false; location := ""; localStorage := storage |}.

Inductive Event : Type :=
| SetSchedule (s : Schedule)
| SetLoading (b : bool)
| SetError (e : option string)
| SetZipCode (z : string)
| SetUseZipCode (b : bool)
| SetLocation (l : string)
| StorageSetItem (key value : string)
| StorageRemoveItem (key : string)
| GeolocationRequest
| ZipRequest (zip : string)
| SunRequest (latitude longitude : Number).

Definition apply (st : State) (ev : Event) : State :=
  match ev with
  | SetSchedule s =>
      {| schedule := Some s; loading := loading st; error := error st;
         zipCode := zipCode st; useZipCode := useZipCode st;
         location := location st; localStorage := localStorage st |}
  | SetLoading b =>
      {| schedule := schedule st; loading := b; error := error st;
         zipCode := zipCode st; useZipCode := useZipCode st;
         location := location st; localStorage := localStorage st |}
  | SetError e =>
      {| schedule := schedule st; loading := loading st; error := e;
         zipCode := zipCode st; useZipCode := useZipCode st;
         location := location st; localStorage := localStorage st |}
  | SetZipCode z =>
      {| schedule := schedule st; loading := loading st; error := error st;
         zipCode := z; useZipCode := useZipCode st;
         location := location st; localStorage := localStorage st |}
  | SetUseZipCode b =>
      {| schedule := schedule st; loading := loading st; error := error st;
         zipCode := zipCode st; useZipCode := b;
         location := location st; localStorage := localStorage st |}
  | SetLocation l =>
      {| schedule := schedule st; loading := loading st; error := error st;
         zipCode := zipCode st; useZipCode := useZipCode st;
         location := l; localStorage := localStorage st |}
  | StorageSetItem key value =>
      {| schedule := schedule st; loading := loading st; error := error st;
         zipCode := zipCode st; useZipCode := useZipCode st;
         location := location st; localStorage := <[key := value]> (localStorage st) |}
  | StorageRemoveItem key =>
      {| schedule := schedule st; loading := loading st; error := error st;
         zipCode := zipCode st; useZipCode := useZipCode st;
         location := location st; localStorage := delete key (localStorage st) |}
  | GeolocationRequest | ZipRequest _ | SunRequest _ _ => st
  end.

Definition run (st : State) (evs : list Event) : State := foldl apply st evs.

Definition deriveSchedule (sunriseTime sunsetTime : Date) : Schedule :=
  let civilDawn := new_Date (JsDate.minus (getTime sunriseTime) (35 * 60000)) in
  let civilDusk := new_Date (JsDate.plus (getTime sunsetTime) (35 * 60000)) in
  let wakeTime := new_Date (JsDate.minus (getTime civilDawn) (45 * 60000)) in
  let adultBedTime := new_Date (JsDate.plus (getTime sunsetTime) bedtime_offset) in
  let toddlerBedTime := new_Date (JsDate.minus (getTime wakeTime) (11 * 60 * 60 * 1000)) in
  {| wakeTime := wakeTime;
     civilDawn := civilDawn;
     sunrise := sunriseTime;
     sunset := sunsetTime;
     civilDusk := civilDusk;
     adultBedTime := adultBedTime;
     toddlerBedTime := toddlerBedTime |}.

Definition fetchZipCodeLocation (env : Env) (zip : string)
  : M Event (Number * Number * string) :=
  try_catch
    (emit (ZipRequest zip);;
     data ← await_json (zip_service env zip);
     match ZipApi.places data with
     | None | Some [] => throw (Error "Invalid zip code")
     | Some (place :: _) =>
         let locationStr :=
           String.append (ZipApi.place_name place)
             (String.append ", " (ZipApi.state place)) in
         mret (parseFloat env (ZipApi.latitude place),
               parseFloat env (ZipApi.longitude place),
               locationStr)
     end)
    (fun err => throw (Error "Invalid zip code. Please try again.")).

Definition fetchSunData (env : Env) (latitude longitude : Number) : M Event unit :=
  try_catch
    (emit (SunRequest latitude longitude);;
     data ← await_json (sun_service env latitude longitude);
     if String.eqb (SunApi.status data) "OK" then
       let sunriseTime := new_Date (Date_parse env (SunApi.sunrise (SunApi.results data))) in
       let sunsetTime := new_Date (Date_parse env (SunApi.sunset (SunApi.results data))) in
       emit (SetSchedule (deriveSchedule sunriseTime sunsetTime));;
       emit (SetError None)
     else mret tt)
    (fun err => throw (Error "Failed to fetch sun data. Please try again.")).

(** [zipCode] is the value the handler's closure captured at render time;
    [overrideZip] is the optional second argument. *)
Definition handleZipCodeSubmit (env : Env) (zipCode : string) (overrideZip : option string)
  : M Event unit :=
  let zipToUse := js_or overrideZip zipCode in
  emit (SetLoading true);;
  try_finally
    (try_catch
       ('(latitude, longitude, location) ← fetchZipCodeLocation env zipToUse;
        fetchSunData env latitude longitude;;
        emit (StorageSetItem ZIP_STORAGE_KEY zipToUse);;
        emit (SetLocation location))
       (fun err => emit (SetError (Some (message_of err)))))
    (emit (SetLoading false)).

Definition getLocationAndSunData (env : Env) : M Event unit :=
  try_finally
    (try_catch
       (emit GeolocationRequest;;
        '(latitude, longitude) ←
          match geolocation env with
          | Position latitude longitude => mret (latitude, longitude)
          | PositionError =>
              throw (Error "Location access denied. Please enter your zip code.")
          end;
        fetchSunData env latitude longitude;;
        emit (SetLocation "Current Location"))
       (fun err => emit (SetError (Some (message_of err)));; emit (SetUseZipCode true)))
    (emit (SetLoading false)).

(** The mount effect, run in the state [st] of the first render:
    [localStorage.getItem] gives a string or null, and on the first branch
    [savedZip] is a non-empty string, passed on as [overrideZip]. *)
Definition useEffect (env : Env) (st : State) : M Event unit :=
  let savedZip := localStorage st !! ZIP_STORAGE_KEY in
  if truthy savedZip then
    emit (SetZipCode (default "" savedZip));;
    emit (SetUseZipCode true);;
    handleZipCodeSubmit env (zipCode st) savedZip
  else
    getLocationAndSunData env.

Definition handleReset (env : Env) : M Event unit :=
  emit (StorageRemoveItem ZIP_STORAGE_KEY);;
  emit (SetZipCode "");;
  emit (SetUseZipCode false);;
  emit (SetLoading true);;
  getLocationAndSunData env.

Definition showsLoadingCard (st : State) : bool := loading st && negb (useZipCode st).
Definition showsForm (st : State) : bool := truthy (error st) || useZipCode st.

Definition submitDisabled (st : State) : bool :=
  loading st || negb (Z.of_nat (String.length (zipCode st)) =? 5).

Definition canSubmit (st : State) : bool :=
  negb (submitDisabled st) && satisfies_constraints (zipCode st).

(** What the render function returns, up to markup: as in the basic
    variant, with the 'Use Location' button in the form (its handler is
    [handleReset]) and the 'Showing times for' line above the rows when
    the location label is not empty. *)
Record FormView : Type := mkForm {
  input_value : string;
  submit_disabled : bool;
  alert : option string
}.

Record RowsView : Type := mkRows {
  showing_times_for : option string;
  rows : Schedule
}.

Inductive View : Type :=
| LoadingCard
| Panel (form : option FormView) (shown : option RowsView).

Definition render (st : State) : View :=
  if loading st && negb (useZipCode st) then LoadingCard
  else
    Panel
      (if truthy (error st) || useZipCode st then
         Some {| input_value := zipCode st;
                 submit_disabled := submitDisabled st;
                 alert := if truthy (error st) then error st else None |}
       else None)
      (match schedule st with
       | Some s =>
           Some {| showing_times_for :=
                     if truthy (Some (location st)) then Some (location st) else None;
                   rows := s |}
       | None => None
       end).

End Persisted.

(** ** Vocabulary of the statements *)

Definition minutes (n : Z) : Z := n * 60000.

(** The time values that are instants a [Date] can hold. *)
Definition is_instant (t : Z) : Prop := - JsDate.maxTime <= t <= JsDate.maxTime.

(** Both variants derive, from the dates of the instants [s] (sunrise) and
    [t] (sunset), exactly the offsets of the derivation rule. *)
Definition offsets_exact (s t : Z) : Prop :=
  let p := Persisted.deriveSchedule (JsDate.instant s) (JsDate.instant t) in
  let b := Basic.deriveSchedule (JsDate.instant s) (JsDate.instant t) in
  (getTime (Persisted.civilDawn p) = Some (s - minutes 35)
   /\ getTime (Persisted.civilDusk p) = Some (t + minutes 35)
   /\ getTime (Persisted.wakeTime p) = Some (s - minutes 35 - minutes 45)
   /\ getTime (Persisted.adultBedTime p) = Some (t + minutes 150)
   /\ getTime (Persisted.toddlerBedTime p) = Some (s - minutes 35 - minutes 45 - minutes 660))
  /\ (getTime (Basic.civilDawn b) = Some (s - minutes 35)
      /\ getTime (Basic.civilDusk b) = Some (t + minutes 35)
      /\ getTime (Basic.wakeTime b) = Some (s - minutes 35 - minutes 45)
      /\ getTime (Basic.bedTime b) = Some (t + minutes 150)).

(** The order of the derived instants, in both variants. *)
Definition schedule_ordered (s t : Z) : Prop :=
  let p := Persisted.deriveSchedule (JsDate.instant s) (JsDate.instant t) in
  let b := Basic.deriveSchedule (JsDate.instant s) (JsDate.instant t) in
  (JsDate.ltb (Persisted.toddlerBedTime p) (Persisted.wakeTime p) = true
   /\ JsDate.ltb (Persisted.wakeTime p) (Persisted.civilDawn p) = true
   /\ JsDate.ltb (Persisted.civilDawn p) (Persisted.sunrise p) = true
   /\ JsDate.ltb (Persisted.sunset p) (Persisted.civilDusk p) = true
   /\ JsDate.ltb (Persisted.civilDusk p) (Persisted.adultBedTime p) = true
   /\ getTime (Persisted.sunrise p) = Some s
   /\ getTime (Persisted.wakeTime p) = Some (s - minutes 80))
  /\ (JsDate.ltb (Basic.wakeTime b) (Basic.civilDawn b) = true
      /\ JsDate.ltb (Basic.civilDawn b) (Basic.sunrise b) = true
      /\ JsDate.ltb (Basic.sunset b) (Basic.civilDusk b) = true
      /\ JsDate.ltb (Basic.civilDusk b) (Basic.bedTime b) = true
      /\ getTime (Basic.sunrise b) = Some s
      /\ getTime (Basic.wakeTime b) = Some (s - minutes 80)).

(** The postal-code lookup fails: the request is rejected, the body is not
    JSON, or the answer has no place. *)
Definition lookup_fails (r : Fetched ZipApi.Response) : bool :=
  match r with
  | Json data =>
      match ZipApi.places data with
      | Some (_ :: _) => false
      | _ => true
      end
  | _ => true
  end.

(** The first place of a lookup that does not fail. *)
Definition first_place (r : Fetched ZipApi.Response) : option ZipApi.Place :=
  match r with
  | Json data =>
      match ZipApi.places data with
      | Some (place :: _) => Some place
      | _ => None
      end
  | _ => None
  end.

(** The sun service gives no schedule: the request is rejected, the body
    is not JSON, or the status is not the success value. *)
Definition sun_fails (r : Fetched SunApi.Response) : bool :=
  match r with
  | Json data => negb (String.eqb (SunApi.status data) "OK")
  | _ => true
  end.

(** A postal-code cycle fails when the lookup fails or the sun service,
    asked about the coordinates of the first place, gives no schedule. *)
Definition cycle_fails (env : Env) (zip : string) : bool :=
  match first_place (zip_service env zip) with
  | Some place =>
      sun_fails (sun_service env (parseFloat env (ZipApi.latitude place))
                   (parseFloat env (ZipApi.longitude place)))
  | None => true
  end.

(** A geolocation cycle fails when the device gives no position or the
    sun service gives no schedule there. *)
Definition geolocation_cycle_fails (env : Env) : bool :=
  match geolocation env with
  | Position latitude longitude => sun_fails (sun_service env latitude longitude)
  | PositionError => true
  end.

(** The sun-data request throws: it is rejected or its body is not
    JSON. *)
Definition sun_throws (r : Fetched SunApi.Response) : bool :=
  match r with
  | Json _ => false
  | _ => true
  end.

(** A postal-code cycle throws when the lookup fails or the sun-data
    request made for the first place throws. *)
Definition cycle_throws (env : Env) (zip : string) : bool :=
  match first_place (zip_service env zip) with
  | Some place =>
      sun_throws (sun_service env (parseFloat env (ZipApi.latitude place))
                    (parseFloat env (ZipApi.longitude place)))
  | None => true
  end.

(** The shared fields of a schedule of the persisted variant, as a
    schedule of the basic variant, and the events the variants share. *)
Definition shared_fields (p : Persisted.Schedule) : Basic.Schedule :=
  {| Basic.wakeTime := Persisted.wakeTime p;
     Basic.civilDawn := Persisted.civilDawn p;
     Basic.sunrise := Persisted.sunrise p;
     Basic.sunset := Persisted.sunset p;
     Basic.civilDusk := Persisted.civilDusk p;
     Basic.bedTime := Persisted.adultBedTime p |}.

Definition shared_event (ev : Persisted.Event) : option Basic.Event :=
  match ev with
  | Persisted.SetSchedule s => Some (Basic.SetSchedule (shared_fields s))
  | Persisted.SetLoading b => Some (Basic.SetLoading b)
  | Persisted.SetError e => Some (Basic.SetError e)
  | Persisted.SetZipCode z => Some (Basic.SetZipCode z)
  | Persisted.SetUseZipCode b => Some (Basic.SetUseZipCode b)
  | Persisted.GeolocationRequest => Some Basic.GeolocationRequest
  | Persisted.ZipRequest zip => Some (Basic.ZipRequest zip)
  | Persisted.SunRequest latitude longitude => Some (Basic.SunRequest latitude longitude)
  | Persisted.SetLocation _ | Persisted.StorageSetItem _ _ | Persisted.StorageRemoveItem _ =>
      None
  end.

Definition invalid_zip_message : string := "Invalid zip code. Please try again.".
Definition sun_failed_message : string := "Failed to fetch sun data. Please try again.".

(** ** Further vocabulary: whole cycles *)

Definition location_denied_message : string :=
  "Location access denied. Please enter your zip code.".

(** The schedule an answer of the sun service leads to. *)
Definition basic_schedule_of (env : Env) (data : SunApi.Response) : Basic.Schedule :=
  Basic.deriveSchedule
    (new_Date (Date_parse env (SunApi.sunrise (SunApi.results data))))
    (new_Date (Date_parse env (SunApi.sunset (SunApi.results data)))).

Definition persisted_schedule_of (env : Env) (data : SunApi.Response) : Persisted.Schedule :=
  Persisted.deriveSchedule
    (new_Date (Date_parse env (SunApi.sunrise (SunApi.results data))))
    (new_Date (Date_parse env (SunApi.sunset (SunApi.results data)))).

(** The label of a place, as the persisted variant shows it. *)
Definition label_of (place : ZipApi.Place) : string :=
  String.append (ZipApi.place_name place) (String.append ", " (ZipApi.state place)).

(** A geolocation cycle throws when the device gives no position or the
    sun-data request made for the position throws. *)
Definition geolocation_cycle_throws (env : Env) : bool :=
  match geolocation env with
  | Position latitude longitude => sun_throws (sun_service env latitude longitude)
  | PositionError => true
  end.

(** The message a throwing postal-code cycle ends with. *)
Definition thrown_message (env : Env) (zip : string) : string :=
  if lookup_fails (zip_service env zip) then invalid_zip_message else sun_failed_message.

(** The message a throwing geolocation cycle ends with. *)
Definition geolocation_thrown_message (env : Env) : string :=
  match geolocation env with
  | Position _ _ => sun_failed_message
  | PositionError => location_denied_message
  end.


(** Counting the requests of a log. *)
Module Count.

Definition basic_zip (evs : list Basic.Event) : nat :=
  length (List.filter (fun ev => match ev with Basic.ZipRequest _ => true | _ => false end) evs).
Definition basic_sun (evs : list Basic.Event) : nat :=
  length (List.filter (fun ev => match ev with Basic.SunRequest _ _ => true | _ => false end) evs).
Definition basic_geo (evs : list Basic.Event) : nat :=
  length (List.filter (fun ev => match ev with Basic.GeolocationRequest => true | _ => false end) evs).

Definition zip (evs : list Persisted.Event) : nat :=
  length (List.filter (fun ev => match ev with Persisted.ZipRequest _ => true | _ => false end) evs).
Definition sun (evs : list Persisted.Event) : nat :=
  length (List.filter (fun ev => match ev with Persisted.SunRequest _ _ => true | _ => false end) evs).
Definition geo (evs : list Persisted.Event) : nat :=
  length (List.filter (fun ev => match ev with Persisted.GeolocationRequest => true | _ => false end) evs).

End Count.

(** A date that holds an instant. *)
Definition valid (d : Date) : Prop := exists t, getTime d = Some t.

(** ** A concrete world *)

Module Scenario.

Definition beverly_hills : ZipApi.Place :=
  {| ZipApi.latitude := "34.0901"; ZipApi.longitude := "-118.4065";
     ZipApi.place_name := "Beverly Hills"; ZipApi.state := "California" |}.

Definition origin : Number := S754_zero false.

(** The parser knows the two timestamps of the scenario. *)
Definition parse (s : string) : JsDate.TimeValue :=
  if String.eqb s "2025-11-02T14:12:00+00:00" then Some 1762092720000
  else if String.eqb s "2025-11-03T00:57:00+00:00" then Some 1762131420000
  else None.

(** A world in which every lookup gets the answer [zips] and every
    sun-data request the answer [sun]; the device reports a position. *)
Definition world (zips : Fetched ZipApi.Response) (sun : Fetched SunApi.Response) : Env :=
  {| zip_service := fun _ => zips;
     sun_service := fun _ _ => sun;
     geolocation := Position origin origin;
     parseFloat := fun _ => origin;
     Date_parse := parse |}.

Definition found : Fetched ZipApi.Response :=
  Json {| ZipApi.places := Some [beverly_hills] |}.

Definition no_places : Fetched ZipApi.Response :=
  Json {| ZipApi.places := Some [] |}.

Definition sun_answer (status : string) : Fetched SunApi.Response :=
  Json {| SunApi.status := status;
          SunApi.results := {| SunApi.sunrise := "2025-11-02T14:12:00+00:00";
                               SunApi.sunset := "2025-11-03T00:57:00+00:00" |} |}.

End Scenario.

(** * Properties *)

Lemma bedtime_offset_exact : (bedtime_offset_literal == inject_Z bedtime_offset)%Q.
Proof. reflexivity. Qed.

Lemma TimeClip_in_range (t : Z) :
  - JsDate.maxTime <= t <= JsDate.maxTime -> JsDate.TimeClip (Some t) = Some t.
Proof.
  intros H. unfold JsDate.TimeClip.
  destruct (Z.leb_spec (Z.abs t) JsDate.maxTime) as [_ | Hgt]; [reflexivity | lia].
Qed.

Lemma TimeClip_out_of_range (t : Z) :
  JsDate.maxTime < Z.abs t -> JsDate.TimeClip (Some t) = None.
Proof.
  intros H. unfold JsDate.TimeClip.
  destruct (Z.leb_spec (Z.abs t) JsDate.maxTime) as [Hle | _]; [lia | reflexivity].
Qed.

Lemma new_Date_wf (tv : JsDate.TimeValue) : JsDate.wf (new_Date tv).
Proof.
  unfold JsDate.wf, new_Date, JsDate.TimeClip; simpl.
  destruct tv as [t |]; [| exact I].
  destruct (Z.leb_spec (Z.abs t) JsDate.maxTime); simpl; [lia | exact I].
Qed.

(** ** Dates *)

Lemma instant_getTime (t : Z) : is_instant t -> getTime (JsDate.instant t) = Some t.
Proof. intros H. unfold JsDate.instant; simpl. now apply TimeClip_in_range. Qed.

Lemma at_clock_decode (d h m r : Z) :
  0 <= h < 24 -> 0 <= m < 60 -> 0 <= r < 60000 ->
  JsDate.Day (JsDate.at_clock d h m r) = d
  /\ JsDate.HourFromTime (JsDate.at_clock d h m r) = h
  /\ JsDate.MinFromTime (JsDate.at_clock d h m r) = m.
Proof.
  intros Hh Hm Hr.
  unfold JsDate.Day, JsDate.HourFromTime, JsDate.MinFromTime, JsDate.at_clock,
    JsDate.msPerDay, JsDate.msPerHour, JsDate.msPerMinute.
  repeat split.
  - symmetry. apply (Z.div_unique _ _ d (h * 3600000 + m * 60000 + r)); lia.
  - replace (d * 86400000 + h * 3600000 + m * 60000 + r)
      with ((d * 24 + h) * 3600000 + (m * 60000 + r)) by ring.
    rewrite <- (Z.div_unique _ 3600000 (d * 24 + h) (m * 60000 + r)) by lia.
    rewrite Z.add_comm, Z.mod_add by lia. apply Z.mod_small; lia.
  - replace (d * 86400000 + h * 3600000 + m * 60000 + r)
      with (((d * 24 + h) * 60 + m) * 60000 + r) by ring.
    rewrite <- (Z.div_unique _ 60000 ((d * 24 + h) * 60 + m) r) by lia.
    rewrite Z.add_comm, Z.mod_add by lia. apply Z.mod_small; lia.
Qed.

(** Rewrites every clipped time value of the goal that is in range. *)
Ltac clip_in_range :=
  repeat match goal with
  | |- context [JsDate.TimeClip (Some ?t)] =>
      rewrite (TimeClip_in_range t) by (unfold JsDate.maxTime, minutes in *; lia)
  end.

Ltac derive_in_range :=
  unfold Persisted.deriveSchedule, Basic.deriveSchedule, JsDate.instant, JsDate.new_Date,
    JsDate.minus, JsDate.plus, JsDate.ltb, bedtime_offset, is_instant in *;
  cbn [Persisted.wakeTime Persisted.civilDawn Persisted.sunrise Persisted.sunset
       Persisted.civilDusk Persisted.toddlerBedTime Persisted.adultBedTime
       Basic.wakeTime Basic.civilDawn Basic.sunrise Basic.sunset Basic.civilDusk
       Basic.bedTime JsDate.getTime fmap option_fmap option_map];
  repeat (clip_in_range;
          cbn [JsDate.getTime fmap option_fmap option_map]).

(** ** The derivation rule *)

(** C1 (as amended).  For every pair of input instants whose derived
    instants stay inside the range of [Date] (sunrise at least 740 minutes
    above its lower end, sunset at least 150 minutes below its upper end),
    both variants compute civilDawn = sunrise - 35 min, civilDusk =
    sunset + 35 min, wakeTime = civilDawn - 45 min, the adult bedtime =
    sunset + 150 min and, in the persisted variant, toddlerBedTime =
    wakeTime - 660 min, exactly. *)
Theorem derivation_offsets_exact (s t : Z) :
  - JsDate.maxTime + minutes 740 <= s <= JsDate.maxTime ->
  - JsDate.maxTime <= t <= JsDate.maxTime - minutes 150 ->
  offsets_exact s t.
Proof.
  intros Hs Ht. unfold offsets_exact.
  derive_in_range.
  unfold minutes. repeat split; f_equal; lia.
Qed.

Lemma derivation_offsets_exact_witness :
  offsets_exact 1762078320000 1762116420000.
Proof.
  apply derivation_offsets_exact; unfold JsDate.maxTime, minutes; lia.
Defined.

(** C1 (as stated) fails at the first instant a [Date] can hold: 35
    minutes before it there is no date, and civilDawn is the invalid
    date. *)
Lemma derivation_offsets_not_for_all_instants :
  ~ (forall s t : Z, is_instant s -> is_instant t -> offsets_exact s t).
Proof.
  intros H.
  destruct (H (- JsDate.maxTime) 0) as [[Hdawn _] _].
  - unfold is_instant, JsDate.maxTime; lia.
  - unfold is_instant, JsDate.maxTime; lia.
  - vm_compute in Hdawn. discriminate Hdawn.
Qed.

(** C4.  Sunrise at 06:12 and sunset at 19:47 of the same day [d] give
    civilDawn 05:37, wakeTime 04:52, civilDusk 20:22 and adult bedtime 22:17
    of day [d], and a toddler bedtime 11 hours before wakeTime, which is
    17:52 of day [d - 1].  ([d] ranges over the days that have a previous
    and a next day inside the range of [Date]; [r1] and [r2] are the
    seconds and milliseconds of the two inputs.) *)
Theorem example_day_schedule (d r1 r2 : Z) :
  - 100000000 < d < 100000000 ->
  0 <= r1 < 60000 ->
  0 <= r2 < 60000 ->
  let p := Persisted.deriveSchedule (JsDate.instant (JsDate.at_clock d 6 12 r1))
             (JsDate.instant (JsDate.at_clock d 19 47 r2)) in
  getTime (Persisted.civilDawn p) = Some (JsDate.at_clock d 5 37 r1)
  /\ getTime (Persisted.wakeTime p) = Some (JsDate.at_clock d 4 52 r1)
  /\ getTime (Persisted.civilDusk p) = Some (JsDate.at_clock d 20 22 r2)
  /\ getTime (Persisted.adultBedTime p) = Some (JsDate.at_clock d 22 17 r2)
  /\ getTime (Persisted.toddlerBedTime p)
     = Some (JsDate.at_clock d 4 52 r1 - 11 * JsDate.msPerHour)
  /\ getTime (Persisted.toddlerBedTime p) = Some (JsDate.at_clock (d - 1) 17 52 r1)
  /\ JsDate.Day (JsDate.at_clock (d - 1) 17 52 r1) = JsDate.Day (JsDate.at_clock d 6 12 r1) - 1
  /\ JsDate.HourFromTime (JsDate.at_clock (d - 1) 17 52 r1) = 17
  /\ JsDate.MinFromTime (JsDate.at_clock (d - 1) 17 52 r1) = 52.
Proof.
  intros Hd Hr1 Hr2 p. subst p.
  destruct (at_clock_decode (d - 1) 17 52 r1) as (HD & HH & HM); try lia.
  destruct (at_clock_decode d 6 12 r1) as (HD' & _ & _); try lia.
  rewrite HD, HD', HH, HM.
  unfold JsDate.at_clock, JsDate.msPerDay, JsDate.msPerHour, JsDate.msPerMinute in *.
  derive_in_range.
  repeat split; f_equal; lia.
Qed.

Lemma example_day_schedule_witness :
  let p := Persisted.deriveSchedule (JsDate.instant (JsDate.at_clock 20394 6 12 0))
             (JsDate.instant (JsDate.at_clock 20394 19 47 0)) in
  getTime (Persisted.civilDawn p) = Some (JsDate.at_clock 20394 5 37 0)
  /\ getTime (Persisted.wakeTime p) = Some (JsDate.at_clock 20394 4 52 0)
  /\ getTime (Persisted.civilDusk p) = Some (JsDate.at_clock 20394 20 22 0)
  /\ getTime (Persisted.adultBedTime p) = Some (JsDate.at_clock 20394 22 17 0)
  /\ getTime (Persisted.toddlerBedTime p)
     = Some (JsDate.at_clock 20394 4 52 0 - 11 * JsDate.msPerHour)
  /\ getTime (Persisted.toddlerBedTime p) = Some (JsDate.at_clock (20394 - 1) 17 52 0)
  /\ JsDate.Day (JsDate.at_clock (20394 - 1) 17 52 0)
     = JsDate.Day (JsDate.at_clock 20394 6 12 0) - 1
  /\ JsDate.HourFromTime (JsDate.at_clock (20394 - 1) 17 52 0) = 17
  /\ JsDate.MinFromTime (JsDate.at_clock (20394 - 1) 17 52 0) = 52.
Proof.
  apply (example_day_schedule 20394 0 0); lia.
Defined.

(** The basic variant, on the same day, shows the same four times. *)
Lemma example_day_schedule_basic (d r1 r2 : Z) :
  - 100000000 < d < 100000000 ->
  0 <= r1 < 60000 ->
  0 <= r2 < 60000 ->
  let b := Basic.deriveSchedule (JsDate.instant (JsDate.at_clock d 6 12 r1))
             (JsDate.instant (JsDate.at_clock d 19 47 r2)) in
  getTime (Basic.civilDawn b) = Some (JsDate.at_clock d 5 37 r1)
  /\ getTime (Basic.wakeTime b) = Some (JsDate.at_clock d 4 52 r1)
  /\ getTime (Basic.civilDusk b) = Some (JsDate.at_clock d 20 22 r2)
  /\ getTime (Basic.bedTime b) = Some (JsDate.at_clock d 22 17 r2).
Proof.
  intros Hd Hr1 Hr2 b. subst b.
  unfold JsDate.at_clock, JsDate.msPerDay, JsDate.msPerHour, JsDate.msPerMinute in *.
  derive_in_range.
  repeat split; f_equal; lia.
Qed.

(** C8 (as amended).  For all input instants whose derived instants stay
    inside the range of [Date], the schedule satisfies toddlerBedTime <
    wakeTime < civilDawn < sunrise and sunset < civilDusk < adult bedtime,
    and wakeTime precedes sunrise by exactly 80 minutes. *)
Theorem derived_schedule_ordered (s t : Z) :
  - JsDate.maxTime + minutes 740 <= s <= JsDate.maxTime ->
  - JsDate.maxTime <= t <= JsDate.maxTime - minutes 150 ->
  schedule_ordered s t.
Proof.
  intros Hs Ht. unfold schedule_ordered.
  derive_in_range.
  unfold minutes.
  repeat split; try (apply Z.ltb_lt; lia); f_equal; lia.
Qed.

Lemma derived_schedule_ordered_witness :
  schedule_ordered 1762078320000 1762116420000.
Proof.
  apply derived_schedule_ordered; unfold JsDate.maxTime, minutes; lia.
Defined.

(** C8 (as stated) fails at the first instant a [Date] can hold: wakeTime
    is then the invalid date, which precedes nothing. *)
Lemma schedule_not_ordered_for_all_instants :
  ~ (forall s t : Z, is_instant s -> is_instant t -> schedule_ordered s t).
Proof.
  intros H.
  destruct (H (- JsDate.maxTime) 0) as [(_ & Hwake & _) _].
  - unfold is_instant, JsDate.maxTime; lia.
  - unfold is_instant, JsDate.maxTime; lia.
  - vm_compute in Hwake. discriminate Hwake.
Qed.

(** C9.  On every pair of dates (valid or not) the two variants derive
    the same wakeTime, civilDawn, sunrise, sunset and civilDusk, and the
    basic variant's bedTime is the persisted variant's adultBedTime. *)
Theorem variants_derive_alike (sunriseTime sunsetTime : Date) :
  let b := Basic.deriveSchedule sunriseTime sunsetTime in
  let p := Persisted.deriveSchedule sunriseTime sunsetTime in
  Basic.wakeTime b = Persisted.wakeTime p
  /\ Basic.civilDawn b = Persisted.civilDawn p
  /\ Basic.sunrise b = Persisted.sunrise p
  /\ Basic.sunset b = Persisted.sunset p
  /\ Basic.civilDusk b = Persisted.civilDusk p
  /\ Basic.bedTime b = Persisted.adultBedTime p.
Proof.
  intros b p. subst b p.
  unfold Basic.deriveSchedule, Persisted.deriveSchedule; simpl.
  repeat split; reflexivity.
Qed.

(** Hence [fetchSunData] does the same in both variants, up to the fields
    the basic schedule lacks. *)
Lemma variants_fetch_alike (env : Env) (latitude longitude : Number) :
  omap shared_event (events (Persisted.fetchSunData env latitude longitude))
  = events (Basic.fetchSunData env latitude longitude)
  /\ outcome (Persisted.fetchSunData env latitude longitude)
     = outcome (Basic.fetchSunData env latitude longitude).
Proof.
  unfold Persisted.fetchSunData, Basic.fetchSunData.
  destruct (sun_service env latitude longitude) as [ | | [status results]]; cbn;
    try (destruct (String.eqb status "OK"); cbn); split; reflexivity.
Qed.

(** ** Fetching *)

(** Splits a goal about the postal-code handlers along the answers of the
    two services. *)
Ltac by_answers :=
  unfold Basic.handleZipCodeSubmit, Persisted.handleZipCodeSubmit,
    Basic.fetchZipCodeLocation, Persisted.fetchZipCodeLocation,
    Basic.fetchSunData, Persisted.fetchSunData,
    cycle_fails, first_place, lookup_fails, sun_fails in *;
  match goal with
  | |- context [zip_service ?env ?code] =>
      destruct (zip_service env code) as [ | | [[[ | place places] | ]]]
  end;
  cbn in *;
  try match goal with
      | |- context [sun_service ?env ?a ?b] =>
          destruct (sun_service env a b) as [ | | [status results]]; cbn in *;
          try (destruct (String.eqb status "OK"); cbn in * )
      end.

(** A status other than ['OK'] makes [fetchSunData] return without a
    setter call and without throwing. *)
Lemma fetchSunData_not_OK (env : Env) (latitude longitude : Number) (data : SunApi.Response) :
  sun_service env latitude longitude = Json data ->
  String.eqb (SunApi.status data) "OK" = false ->
  Basic.fetchSunData env latitude longitude = ([Basic.SunRequest latitude longitude], inr tt)
  /\ Persisted.fetchSunData env latitude longitude
     = ([Persisted.SunRequest latitude longitude], inr tt).
Proof.
  intros Hdata Hstatus.
  unfold Basic.fetchSunData, Persisted.fetchSunData.
  rewrite Hdata; cbn. rewrite Hstatus; cbn. split; reflexivity.
Qed.

(** A rejected request or an unreadable body makes it throw its one
    message. *)
Lemma fetchSunData_throws (env : Env) (latitude longitude : Number) :
  sun_service env latitude longitude = Rejected
  \/ sun_service env latitude longitude = NotJson ->
  Basic.fetchSunData env latitude longitude
  = ([Basic.SunRequest latitude longitude], inl (Error sun_failed_message))
  /\ Persisted.fetchSunData env latitude longitude
     = ([Persisted.SunRequest latitude longitude], inl (Error sun_failed_message)).
Proof.
  unfold Basic.fetchSunData, Persisted.fetchSunData.
  intros [H | H]; rewrite H; cbn; split; reflexivity.
Qed.

(** C10.  Whatever makes the postal-code lookup fail (a rejected request,
    a body that is not JSON, an answer without places or with zero
    places), [fetchZipCodeLocation] throws the one message 'Invalid zip
    code. Please try again.', and that is the error the submit handler
    shows, in both variants. *)
Theorem lookup_failures_share_one_message (env : Env) (zip : string) :
  lookup_fails (zip_service env zip) = true ->
  outcome (Basic.fetchZipCodeLocation env zip) = inl (Error invalid_zip_message)
  /\ outcome (Persisted.fetchZipCodeLocation env zip) = inl (Error invalid_zip_message)
  /\ events (Basic.handleZipCodeSubmit env zip)
     = [Basic.SetLoading true; Basic.ZipRequest zip;
        Basic.SetError (Some invalid_zip_message); Basic.SetLoading false]
  /\ (forall zipCode overrideZip, js_or overrideZip zipCode = zip ->
      events (Persisted.handleZipCodeSubmit env zipCode overrideZip)
      = [Persisted.SetLoading true; Persisted.ZipRequest zip;
         Persisted.SetError (Some invalid_zip_message); Persisted.SetLoading false]).
Proof.
  intros Hfail.
  split; [ | split; [ | split]].
  4: intros zc ov Hzip; unfold Persisted.handleZipCodeSubmit; rewrite Hzip.
  all: by_answers; first [reflexivity | discriminate Hfail].
Qed.

Lemma lookup_failures_share_one_message_witness :
  events (Basic.handleZipCodeSubmit (Scenario.world Rejected (Scenario.sun_answer "OK")) "90210")
  = [Basic.SetLoading true; Basic.ZipRequest "90210";
     Basic.SetError (Some invalid_zip_message); Basic.SetLoading false].
Proof.
  apply (lookup_failures_share_one_message
           (Scenario.world Rejected (Scenario.sun_answer "OK")) "90210").
  reflexivity.
Defined.

(** ** The schedule in failing cycles *)

Ltac no_such_event :=
  let H := fresh "Hin" in
  intros ? H; cbn in H; intuition discriminate.

(** C3.  A postal-code cycle that fails (the lookup finds zero places or
    throws, or the sun service gives no schedule) never calls
    [setSchedule]: the schedule after the cycle is the schedule before it,
    absent or present, in both variants. *)
Theorem failing_cycle_keeps_schedule (env : Env) (zip : string) :
  cycle_fails env zip = true ->
  (forall st : Basic.State,
      Basic.schedule (Basic.run st (events (Basic.handleZipCodeSubmit env zip)))
      = Basic.schedule st
      /\ forall s, ~ In (Basic.SetSchedule s) (events (Basic.handleZipCodeSubmit env zip)))
  /\ (forall (st : Persisted.State) zipCode overrideZip,
      js_or overrideZip zipCode = zip ->
      Persisted.schedule
        (Persisted.run st (events (Persisted.handleZipCodeSubmit env zipCode overrideZip)))
      = Persisted.schedule st
      /\ forall s, ~ In (Persisted.SetSchedule s)
                     (events (Persisted.handleZipCodeSubmit env zipCode overrideZip))).
Proof.
  intros Hfail. split.
  - intros st. by_answers; try discriminate Hfail; (split; [reflexivity | no_such_event]).
  - intros st zc ov Hzip. unfold Persisted.handleZipCodeSubmit. rewrite Hzip.
    by_answers; try discriminate Hfail; (split; [reflexivity | no_such_event]).
Qed.

Lemma failing_cycle_keeps_schedule_witness :
  let env := Scenario.world Scenario.no_places (Scenario.sun_answer "OK") in
  let shown := Basic.deriveSchedule (JsDate.instant 1762092720000) (JsDate.instant 1762131420000) in
  let st := {| Basic.schedule := Some shown; Basic.loading := false; Basic.error := None;
               Basic.zipCode := "00000"; Basic.useZipCode := true |} in
  Basic.schedule (Basic.run st (events (Basic.handleZipCodeSubmit env "00000"))) = Some shown.
Proof.
  intros env shown st.
  apply (failing_cycle_keeps_schedule env "00000"). reflexivity.
Defined.

(** X20.  The same for a geolocation cycle: without a position, or without a
    schedule from the sun service, [setSchedule] is not called. *)
Lemma failing_geolocation_keeps_schedule (env : Env) :
  geolocation_cycle_fails env = true ->
  (forall st : Basic.State,
      Basic.schedule (Basic.run st (events (Basic.getLocationAndSunData env)))
      = Basic.schedule st)
  /\ (forall st : Persisted.State,
      Persisted.schedule (Persisted.run st (events (Persisted.getLocationAndSunData env)))
      = Persisted.schedule st).
Proof.
  unfold geolocation_cycle_fails, Basic.getLocationAndSunData,
    Persisted.getLocationAndSunData, Basic.fetchSunData, Persisted.fetchSunData, sun_fails.
  intros Hfail.
  destruct (geolocation env) as [latitude longitude | ]; cbn.
  - destruct (sun_service env latitude longitude) as [ | | [status results]]; cbn in *;
      try (destruct (String.eqb status "OK"); cbn in * );
      try discriminate Hfail; split; reflexivity.
  - split; reflexivity.
Qed.

(** Whatever a cycle hands to [setSchedule] is a whole schedule, derived
    from the two dates of an answer with status ['OK']. *)
Lemma schedule_set_is_derived (env : Env) (zip : string) (s : Basic.Schedule) :
  In (Basic.SetSchedule s) (events (Basic.handleZipCodeSubmit env zip)) ->
  exists sunriseTime sunsetTime, s = Basic.deriveSchedule sunriseTime sunsetTime.
Proof.
  by_answers; intros Hin; cbn in Hin;
    repeat match goal with
           | H : _ \/ _ |- _ => destruct H as [H | H]
           end;
    try discriminate; try contradiction.
  injection Hin as <-. eauto.
Qed.

(** C2, at a failing input.  The lookup finds the place and the sun
    service answers with status INVALID_REQUEST: the schedule stays absent,
    but no error message is set before [setLoading(false)], by the submit
    handler of either variant or by the geolocation cycle; the persisted
    variant saves the code and shows the place name as after a success. *)
Theorem non_OK_status_sets_no_error :
  let env := Scenario.world Scenario.found (Scenario.sun_answer "INVALID_REQUEST") in
  let basic := events (Basic.handleZipCodeSubmit env "90210") in
  let persisted := events (Persisted.handleZipCodeSubmit env "90210" None) in
  let located := events (Basic.getLocationAndSunData env) in
  basic = [Basic.SetLoading true; Basic.ZipRequest "90210";
           Basic.SunRequest Scenario.origin Scenario.origin; Basic.SetLoading false]
  /\ Basic.error (Basic.run Basic.initial basic) = None
  /\ Basic.schedule (Basic.run Basic.initial basic) = None
  /\ Basic.loading (Basic.run Basic.initial basic) = false
  /\ persisted = [Persisted.SetLoading true; Persisted.ZipRequest "90210";
                  Persisted.SunRequest Scenario.origin Scenario.origin;
                  Persisted.StorageSetItem Persisted.ZIP_STORAGE_KEY "90210";
                  Persisted.SetLocation "Beverly Hills, California";
                  Persisted.SetLoading false]
  /\ Persisted.error (Persisted.run (Persisted.initial ∅) persisted) = None
  /\ Persisted.schedule (Persisted.run (Persisted.initial ∅) persisted) = None
  /\ located = [Basic.GeolocationRequest;
                Basic.SunRequest Scenario.origin Scenario.origin; Basic.SetLoading false]
  /\ Basic.error (Basic.run Basic.initial located) = None
  /\ Basic.showsForm (Basic.run Basic.initial located) = false.
Proof.
  cbv zeta. repeat split; vm_compute; reflexivity.
Qed.

(** The same at every input: after a lookup that found a place, any
    answer of the sun service with a status other than ['OK'] leaves the
    handler with nothing between the request and [setLoading(false)]. *)
Lemma non_OK_status_is_silent
  (env : Env) (zip : string) (place : ZipApi.Place) (data : SunApi.Response) :
  first_place (zip_service env zip) = Some place ->
  sun_service env (parseFloat env (ZipApi.latitude place))
    (parseFloat env (ZipApi.longitude place)) = Json data ->
  String.eqb (SunApi.status data) "OK" = false ->
  events (Basic.handleZipCodeSubmit env zip)
  = [Basic.SetLoading true; Basic.ZipRequest zip;
     Basic.SunRequest (parseFloat env (ZipApi.latitude place))
       (parseFloat env (ZipApi.longitude place));
     Basic.SetLoading false].
Proof.
  intros Hplace Hdata Hstatus.
  unfold Basic.handleZipCodeSubmit, Basic.fetchZipCodeLocation, first_place in *.
  destruct (zip_service env zip) as [ | | [[[ | place' places] | ]]];
    try discriminate Hplace.
  injection Hplace as ->. cbn.
  destruct (fetchSunData_not_OK env _ _ data Hdata Hstatus) as [Hb _].
  rewrite Hb. reflexivity.
Qed.

(** X21.  The handlers catch whatever is thrown inside them: they always
    complete, and with [setLoading(false)] as their last step. *)
Lemma handlers_complete (env : Env) (zipCode : string) (overrideZip : option string) :
  (outcome (Basic.handleZipCodeSubmit env zipCode) = inr tt
   /\ last (events (Basic.handleZipCodeSubmit env zipCode)) = Some (Basic.SetLoading false))
  /\ (outcome (Persisted.handleZipCodeSubmit env zipCode overrideZip) = inr tt
      /\ last (events (Persisted.handleZipCodeSubmit env zipCode overrideZip))
         = Some (Persisted.SetLoading false)).
Proof.
  split.
  - by_answers; split; reflexivity.
  - unfold Persisted.handleZipCodeSubmit.
    generalize (js_or overrideZip zipCode) as code. intros code.
    by_answers; split; reflexivity.
Qed.

(** With the same lookup, a request that the sun service rejects does set
    the message: the sibling path of the one above. *)
Lemma rejected_sun_request_sets_error :
  events (Basic.handleZipCodeSubmit (Scenario.world Scenario.found Rejected) "90210")
  = [Basic.SetLoading true; Basic.ZipRequest "90210";
     Basic.SunRequest Scenario.origin Scenario.origin;
     Basic.SetError (Some sun_failed_message); Basic.SetLoading false].
Proof. reflexivity. Qed.

(** ** The submit button *)

Lemma matches_pattern_length (value : string) :
  matches_pattern value = true -> String.length value = 5%nat.
Proof.
  unfold matches_pattern. intros H.
  apply andb_true_iff in H as [H _]. apply Z.eqb_eq in H. lia.
Qed.

(** C5 (as amended).  In every state of either variant the submit button
    is disabled exactly when a cycle is in progress or the entered code
    does not have exactly 5 characters; pressing it submits the form
    exactly when no cycle is in progress and the code is 5 digits, the
    digits being required by the pattern of the input and not by the
    button. *)
Theorem submit_disabled_iff :
  (forall st : Basic.State,
      (Basic.submitDisabled st = true
       <-> Basic.loading st = true \/ String.length (Basic.zipCode st) <> 5%nat)
      /\ (Basic.canSubmit st = true
          <-> Basic.loading st = false /\ matches_pattern (Basic.zipCode st) = true))
  /\ (forall st : Persisted.State,
      (Persisted.submitDisabled st = true
       <-> Persisted.loading st = true \/ String.length (Persisted.zipCode st) <> 5%nat)
      /\ (Persisted.canSubmit st = true
          <-> Persisted.loading st = false /\ matches_pattern (Persisted.zipCode st) = true)).
Proof.
  assert (Hd : forall (l : bool) (z : string),
             l || negb (Z.of_nat (String.length z) =? 5) = true
             <-> l = true \/ String.length z <> 5%nat).
  { intros l z. rewrite orb_true_iff, negb_true_iff, Z.eqb_neq. split; intros [H | H]; auto.
    - right. lia.
    - right. lia. }
  assert (Hc : forall (l : bool) (z : string),
             negb (l || negb (Z.of_nat (String.length z) =? 5)) && satisfies_constraints z = true
             <-> l = false /\ matches_pattern z = true).
  { intros l z. rewrite andb_true_iff, negb_true_iff, orb_false_iff, negb_false_iff, Z.eqb_eq.
    split.
    - intros [[Hl Hlen] Hs]. split; [exact Hl | ].
      destruct z; [discriminate Hlen | exact Hs].
    - intros [Hl Hm]. pose proof (matches_pattern_length z Hm) as Hlen.
      repeat split; [exact Hl | lia | ].
      destruct z; [discriminate Hlen | exact Hm]. }
  split; intros st.
  - unfold Basic.canSubmit, Basic.submitDisabled. split; [apply Hd | apply Hc].
  - unfold Persisted.canSubmit, Persisted.submitDisabled. split; [apply Hd | apply Hc].
Qed.

(** C5 (as stated) fails for five letters: the button is enabled although
    the code is not 5 digits. *)
Lemma submit_enabled_for_five_letters :
  ~ (forall st : Basic.State,
        Basic.submitDisabled st = true
        <-> matches_pattern (Basic.zipCode st) = false \/ Basic.loading st = true).
Proof.
  intros H.
  specialize (H {| Basic.schedule := None; Basic.loading := false; Basic.error := None;
                   Basic.zipCode := "abcde"; Basic.useZipCode := true |}).
  destruct H as [_ H]. specialize (H (or_introl eq_refl)). discriminate H.
Qed.

(** ** The saved postal code *)

(** C6 (as amended).  A submission whose lookup finds a place and whose
    sun-data fetch then succeeds saves the code it used under
    [ZIP_STORAGE_KEY]; a submission whose lookup fails, or whose sun-data
    request throws, writes nothing to storage; and nothing but that code
    under that key is ever written. *)
Theorem code_saved_after_successful_cycle
  (env : Env) (st : Persisted.State) (zipCode : string) (overrideZip : option string) :
  let zip := js_or overrideZip zipCode in
  let evs := events (Persisted.handleZipCodeSubmit env zipCode overrideZip) in
  (cycle_fails env zip = false ->
   Persisted.localStorage (Persisted.run st evs)
   = <[Persisted.ZIP_STORAGE_KEY := zip]> (Persisted.localStorage st))
  /\ (cycle_throws env zip = true ->
      Persisted.localStorage (Persisted.run st evs) = Persisted.localStorage st
      /\ forall key value, ~ In (Persisted.StorageSetItem key value) evs)
  /\ (lookup_fails (zip_service env zip) = true -> cycle_throws env zip = true)
  /\ (forall key value, In (Persisted.StorageSetItem key value) evs ->
      key = Persisted.ZIP_STORAGE_KEY /\ value = zip).
Proof.
  intros zip evs. subst zip evs.
  unfold Persisted.handleZipCodeSubmit, cycle_throws, sun_throws.
  generalize (js_or overrideZip zipCode) as code. intros code.
  by_answers; (split; [ | split; [ | split]]);
    try (intros Hfail; first [discriminate Hfail | reflexivity]);
    try (split; [reflexivity | ]);
    try (intros key value Hin; cbn in Hin;
         repeat match goal with
                | H : _ \/ _ |- _ => destruct H as [H | H]
                end;
         try discriminate; try contradiction;
         injection Hin as <- <-; split; reflexivity).
Qed.

(** C6 (as stated) fails when the sun-data request is rejected after a
    lookup that found the place: the code is not saved. *)
Lemma code_not_saved_when_sun_request_fails :
  ~ (forall (env : Env) (st : Persisted.State) (zipCode : string) (overrideZip : option string),
        lookup_fails (zip_service env (js_or overrideZip zipCode)) = false ->
        Persisted.localStorage
          (Persisted.run st (events (Persisted.handleZipCodeSubmit env zipCode overrideZip)))
          !! Persisted.ZIP_STORAGE_KEY
        = Some (js_or overrideZip zipCode)).
Proof.
  intros H.
  specialize (H (Scenario.world Scenario.found Rejected) (Persisted.initial ∅) "90210" None
                eq_refl).
  vm_compute in H. discriminate H.
Qed.

(** ** Startup *)

(** C7.  On startup of the persisted variant: with a saved code in storage
    (any non-empty string), the effect makes no geolocation request and
    submits the saved code, its first request being the lookup of that
    code; with no saved code, the effect is the geolocation cycle, whose
    first step is the geolocation request. *)
Theorem startup_prefers_saved_code
  (env : Env) (st : Persisted.State) (saved : option string) :
  Persisted.localStorage st !! Persisted.ZIP_STORAGE_KEY = saved ->
  saved <> Some "" ->
  let evs := events (Persisted.useEffect env st) in
  match saved with
  | Some code =>
      ~ In Persisted.GeolocationRequest evs
      /\ evs = Persisted.SetZipCode code :: Persisted.SetUseZipCode true
               :: events (Persisted.handleZipCodeSubmit env (Persisted.zipCode st) (Some code))
      /\ exists rest,
          evs = [Persisted.SetZipCode code; Persisted.SetUseZipCode true;
                 Persisted.SetLoading true; Persisted.ZipRequest code] ++ rest
  | None =>
      evs = events (Persisted.getLocationAndSunData env)
      /\ exists rest, evs = Persisted.GeolocationRequest :: rest
  end.
Proof.
  intros Hsaved Hnonempty evs. subst evs.
  unfold Persisted.useEffect. rewrite Hsaved.
  destruct saved as [[ | c code] | ].
  - contradiction Hnonempty; reflexivity.
  - cbn [truthy default]. set (zip := String c code).
    assert (Hzip : js_or (Some zip) (Persisted.zipCode st) = zip) by reflexivity.
    unfold Persisted.handleZipCodeSubmit. rewrite Hzip. clearbody zip. clear Hzip.
    by_answers; (split; [ | split; [reflexivity | eexists; reflexivity]]);
      intros Hin; cbn in Hin; intuition discriminate.
  - cbn [truthy]. split; [reflexivity | ].
    unfold Persisted.getLocationAndSunData, Persisted.fetchSunData.
    destruct (geolocation env) as [latitude longitude | ]; cbn.
    + destruct (sun_service env latitude longitude) as [ | | [status results]]; cbn;
        try (destruct (String.eqb status "OK"); cbn); eexists; reflexivity.
    + eexists; reflexivity.
Qed.

Lemma startup_prefers_saved_code_witness :
  ~ In Persisted.GeolocationRequest
      (events (Persisted.useEffect (Scenario.world Scenario.found (Scenario.sun_answer "OK"))
                 (Persisted.initial {[ Persisted.ZIP_STORAGE_KEY := "90210" ]}))).
Proof.
  apply (startup_prefers_saved_code
           (Scenario.world Scenario.found (Scenario.sun_answer "OK"))
           (Persisted.initial {[ Persisted.ZIP_STORAGE_KEY := "90210" ]})
           (Some "90210")).
  - vm_compute. reflexivity.
  - discriminate.
Defined.

(** X22.  An empty string under the key counts as no saved code. *)
Lemma startup_ignores_empty_code (env : Env) (st : Persisted.State) :
  Persisted.localStorage st !! Persisted.ZIP_STORAGE_KEY = Some "" ->
  Persisted.useEffect env st = Persisted.getLocationAndSunData env.
Proof. intros H. unfold Persisted.useEffect. rewrite H. reflexivity. Qed.

(** Saving and restarting: after a submission that saved its code, the
    next startup looks that code up and does not ask for the position. *)
Lemma restart_after_save :
  let env := Scenario.world Scenario.found (Scenario.sun_answer "OK") in
  let st := Persisted.run (Persisted.initial ∅)
              (events (Persisted.handleZipCodeSubmit env "90210" None)) in
  events (Persisted.useEffect env (Persisted.initial (Persisted.localStorage st)))
  = [Persisted.SetZipCode "90210"; Persisted.SetUseZipCode true;
     Persisted.SetLoading true; Persisted.ZipRequest "90210";
     Persisted.SunRequest Scenario.origin Scenario.origin;
     Persisted.SetSchedule
       (Persisted.deriveSchedule (JsDate.instant 1762092720000) (JsDate.instant 1762131420000));
     Persisted.SetError None;
     Persisted.StorageSetItem Persisted.ZIP_STORAGE_KEY "90210";
     Persisted.SetLocation "Beverly Hills, California";
     Persisted.SetLoading false].
Proof. vm_compute. reflexivity. Qed.

(** * Whole cycles *)

(** Splits a goal about the geolocation cycles along the answers of the
    device and of the sun service. *)
Ltac by_position :=
  unfold Basic.useEffect, Persisted.handleReset,
    Basic.getLocationAndSunData, Persisted.getLocationAndSunData,
    Basic.fetchSunData, Persisted.fetchSunData,
    geolocation_cycle_throws, geolocation_cycle_fails, geolocation_thrown_message,
    sun_throws, sun_fails in *;
  match goal with
  | |- context [geolocation ?env] =>
      destruct (geolocation env) as [latitude longitude | ]
  end;
  cbn in *;
  try match goal with
      | |- context [sun_service ?env ?a ?b] =>
          destruct (sun_service env a b) as [ | | [status results]]; cbn in *;
          try (destruct (String.eqb status "OK"); cbn in * )
      end.

(** ** Successful cycles *)

(** X1.  A submission whose lookup finds a place and whose sun-data answer has
    status ['OK'] ends with the schedule derived from that answer, no
    error (whatever error was shown before), loading released, and the
    entered code and the manual-entry flag as they were; the persisted
    variant also shows the label of the first place and has the code in
    storage.  Further places of the answer play no part. *)
Theorem successful_submit_state
  (env : Env) (zip : string) (place : ZipApi.Place) (others : list ZipApi.Place)
  (data : SunApi.Response) :
  zip_service env zip = Json {| ZipApi.places := Some (place :: others) |} ->
  sun_service env (parseFloat env (ZipApi.latitude place))
    (parseFloat env (ZipApi.longitude place)) = Json data ->
  SunApi.status data = "OK" ->
  (forall st : Basic.State,
      Basic.run st (events (Basic.handleZipCodeSubmit env zip))
      = {| Basic.schedule := Some (basic_schedule_of env data);
           Basic.loading := false;
           Basic.error := None;
           Basic.zipCode := Basic.zipCode st;
           Basic.useZipCode := Basic.useZipCode st |})
  /\ (forall (st : Persisted.State) zipCode overrideZip,
      js_or overrideZip zipCode = zip ->
      Persisted.run st (events (Persisted.handleZipCodeSubmit env zipCode overrideZip))
      = {| Persisted.schedule := Some (persisted_schedule_of env data);
           Persisted.loading := false;
           Persisted.error := None;
           Persisted.zipCode := Persisted.zipCode st;
           Persisted.useZipCode := Persisted.useZipCode st;
           Persisted.location := label_of place;
           Persisted.localStorage :=
             <[Persisted.ZIP_STORAGE_KEY := zip]> (Persisted.localStorage st) |}).
Proof.
  intros Hzip Hsun Hstatus. split.
  - intros st.
    unfold Basic.handleZipCodeSubmit, Basic.fetchZipCodeLocation, Basic.fetchSunData.
    rewrite Hzip; cbn. rewrite Hsun; cbn. rewrite Hstatus; cbn. reflexivity.
  - intros st zc ov Hcode.
    unfold Persisted.handleZipCodeSubmit, Persisted.fetchZipCodeLocation,
      Persisted.fetchSunData.
    rewrite Hcode, Hzip; cbn. rewrite Hsun; cbn. rewrite Hstatus; cbn. reflexivity.
Qed.

Lemma successful_submit_state_witness :
  let env := Scenario.world Scenario.found (Scenario.sun_answer "OK") in
  let st := {| Basic.schedule := None; Basic.loading := false;
               Basic.error := Some invalid_zip_message;
               Basic.zipCode := "90210"; Basic.useZipCode := true |} in
  Basic.run st (events (Basic.handleZipCodeSubmit env "90210"))
  = {| Basic.schedule :=
         Some (Basic.deriveSchedule (JsDate.instant 1762092720000)
                 (JsDate.instant 1762131420000));
       Basic.loading := false;
       Basic.error := None;
       Basic.zipCode := "90210";
       Basic.useZipCode := true |}.
Proof.
  intros env st.
  apply (successful_submit_state env "90210" Scenario.beverly_hills []
           {| SunApi.status := "OK";
              SunApi.results := {| SunApi.sunrise := "2025-11-02T14:12:00+00:00";
                                   SunApi.sunset := "2025-11-03T00:57:00+00:00" |} |});
    reflexivity.
Defined.

(** X2.  A geolocation cycle with a position and a sun-data answer of status
    ['OK'] ends with the schedule derived from that answer, no error and
    loading released; the persisted variant shows 'Current Location' and
    leaves storage alone. *)
Theorem successful_geolocation_state
  (env : Env) (latitude longitude : Number) (data : SunApi.Response) :
  geolocation env = Position latitude longitude ->
  sun_service env latitude longitude = Json data ->
  SunApi.status data = "OK" ->
  (forall st : Basic.State,
      Basic.run st (events (Basic.getLocationAndSunData env))
      = {| Basic.schedule := Some (basic_schedule_of env data);
           Basic.loading := false;
           Basic.error := None;
           Basic.zipCode := Basic.zipCode st;
           Basic.useZipCode := Basic.useZipCode st |})
  /\ (forall st : Persisted.State,
      Persisted.run st (events (Persisted.getLocationAndSunData env))
      = {| Persisted.schedule := Some (persisted_schedule_of env data);
           Persisted.loading := false;
           Persisted.error := None;
           Persisted.zipCode := Persisted.zipCode st;
           Persisted.useZipCode := Persisted.useZipCode st;
           Persisted.location := "Current Location";
           Persisted.localStorage := Persisted.localStorage st |}).
Proof.
  intros Hgeo Hsun Hstatus. split; intros st.
  - unfold Basic.getLocationAndSunData, Basic.fetchSunData.
    rewrite Hgeo; cbn. rewrite Hsun; cbn. rewrite Hstatus; cbn. reflexivity.
  - unfold Persisted.getLocationAndSunData, Persisted.fetchSunData.
    rewrite Hgeo; cbn. rewrite Hsun; cbn. rewrite Hstatus; cbn. reflexivity.
Qed.

Lemma successful_geolocation_state_witness :
  let env := Scenario.world Rejected (Scenario.sun_answer "OK") in
  Persisted.location
    (Persisted.run (Persisted.initial ∅) (events (Persisted.getLocationAndSunData env)))
  = "Current Location".
Proof.
  intros env.
  destruct (successful_geolocation_state env Scenario.origin Scenario.origin
              {| SunApi.status := "OK";
                 SunApi.results := {| SunApi.sunrise := "2025-11-02T14:12:00+00:00";
                                      SunApi.sunset := "2025-11-03T00:57:00+00:00" |} |}
              eq_refl eq_refl eq_refl) as [_ Hp].
  rewrite Hp. reflexivity.
Defined.

(** ** Throwing cycles *)

(** X3.  A submission that throws changes two cells only: the error becomes
    the message of the cause (the lookup's message when the lookup fails,
    the sun-data message when the sun-data request throws) and loading is
    released.  The schedule, the entered code, the manual-entry flag, the
    location label and storage stay as they were. *)
Theorem throwing_submit_state (env : Env) (zip : string) :
  cycle_throws env zip = true ->
  (forall st : Basic.State,
      Basic.run st (events (Basic.handleZipCodeSubmit env zip))
      = {| Basic.schedule := Basic.schedule st;
           Basic.loading := false;
           Basic.error := Some (thrown_message env zip);
           Basic.zipCode := Basic.zipCode st;
           Basic.useZipCode := Basic.useZipCode st |})
  /\ (forall (st : Persisted.State) zipCode overrideZip,
      js_or overrideZip zipCode = zip ->
      Persisted.run st (events (Persisted.handleZipCodeSubmit env zipCode overrideZip))
      = {| Persisted.schedule := Persisted.schedule st;
           Persisted.loading := false;
           Persisted.error := Some (thrown_message env zip);
           Persisted.zipCode := Persisted.zipCode st;
           Persisted.useZipCode := Persisted.useZipCode st;
           Persisted.location := Persisted.location st;
           Persisted.localStorage := Persisted.localStorage st |}).
Proof.
  unfold cycle_throws, sun_throws, thrown_message. intros Hthrows. split.
  - intros st. by_answers; first [discriminate Hthrows | reflexivity].
  - intros st zc ov Hcode. unfold Persisted.handleZipCodeSubmit. rewrite Hcode.
    by_answers; first [discriminate Hthrows | reflexivity].
Qed.

Lemma throwing_submit_state_witness :
  Basic.error
    (Basic.run Basic.initial
       (events (Basic.handleZipCodeSubmit (Scenario.world Scenario.found NotJson) "90210")))
  = Some sun_failed_message.
Proof.
  destruct (throwing_submit_state (Scenario.world Scenario.found NotJson) "90210" eq_refl)
    as [Hb _].
  rewrite Hb. reflexivity.
Defined.

(** X4.  A geolocation cycle that throws (no position, or a sun-data request
    that throws) switches to manual entry: the flag is set, the error is
    the message of the cause, loading is released and nothing else
    changes.  Without a position no sun-data request is made. *)
Theorem throwing_geolocation_state (env : Env) :
  geolocation_cycle_throws env = true ->
  (forall st : Basic.State,
      Basic.run st (events (Basic.getLocationAndSunData env))
      = {| Basic.schedule := Basic.schedule st;
           Basic.loading := false;
           Basic.error := Some (geolocation_thrown_message env);
           Basic.zipCode := Basic.zipCode st;
           Basic.useZipCode := true |})
  /\ (forall st : Persisted.State,
      Persisted.run st (events (Persisted.getLocationAndSunData env))
      = {| Persisted.schedule := Persisted.schedule st;
           Persisted.loading := false;
           Persisted.error := Some (geolocation_thrown_message env);
           Persisted.zipCode := Persisted.zipCode st;
           Persisted.useZipCode := true;
           Persisted.location := Persisted.location st;
           Persisted.localStorage := Persisted.localStorage st |})
  /\ (geolocation env = PositionError ->
      Count.basic_sun (events (Basic.getLocationAndSunData env)) = 0%nat
      /\ Count.sun (events (Persisted.getLocationAndSunData env)) = 0%nat).
Proof.
  intros Hthrows. split; [ | split].
  - intros st. by_position; first [discriminate Hthrows | reflexivity].
  - intros st. by_position; first [discriminate Hthrows | reflexivity].
  - intros Hgeo.
    unfold Basic.getLocationAndSunData, Persisted.getLocationAndSunData.
    rewrite Hgeo. split; reflexivity.
Qed.

Lemma throwing_geolocation_state_witness :
  let env := {| zip_service := fun _ => Scenario.found;
                sun_service := fun _ _ => Scenario.sun_answer "OK";
                geolocation := PositionError;
                parseFloat := fun _ => Scenario.origin;
                Date_parse := Scenario.parse |} in
  Basic.run Basic.initial (events (Basic.getLocationAndSunData env))
  = {| Basic.schedule := None; Basic.loading := false;
       Basic.error := Some location_denied_message;
       Basic.zipCode := ""; Basic.useZipCode := true |}.
Proof.
  intros env.
  destruct (throwing_geolocation_state env eq_refl) as [Hb _].
  rewrite Hb. reflexivity.
Defined.

(** ** Reset and restart *)

(** X5.  The 'Use Location' handler removes the saved code and nothing else
    from storage, empties the entered code, and runs a geolocation cycle:
    it ends with loading released and with manual entry switched on
    exactly when that cycle threw.  It neither clears the error nor the
    schedule: a cycle that fails leaves the schedule of the old place on
    screen. *)
Theorem reset_forgets_saved_code (env : Env) (st : Persisted.State) :
  let st' := Persisted.run st (events (Persisted.handleReset env)) in
  Persisted.localStorage st' = delete Persisted.ZIP_STORAGE_KEY (Persisted.localStorage st)
  /\ Persisted.localStorage st' !! Persisted.ZIP_STORAGE_KEY = None
  /\ (forall key, key <> Persisted.ZIP_STORAGE_KEY ->
      Persisted.localStorage st' !! key = Persisted.localStorage st !! key)
  /\ Persisted.zipCode st' = ""
  /\ Persisted.loading st' = false
  /\ Persisted.useZipCode st' = geolocation_cycle_throws env
  /\ (geolocation_cycle_fails env = true -> Persisted.schedule st' = Persisted.schedule st)
  /\ (geolocation_cycle_throws env = false /\ geolocation_cycle_fails env = true ->
      Persisted.error st' = Persisted.error st).
Proof.
  intros st'. subst st'.
  assert (Hstore : Persisted.localStorage
                     (Persisted.run st (events (Persisted.handleReset env)))
                   = delete Persisted.ZIP_STORAGE_KEY (Persisted.localStorage st)).
  { by_position; reflexivity. }
  split; [exact Hstore | ].
  split; [rewrite Hstore; apply lookup_delete_eq | ].
  split; [intros key Hkey; rewrite Hstore; apply lookup_delete_ne; congruence | ].
  clear Hstore.
  by_position; repeat split; try reflexivity;
    try (intros H; discriminate H); try (intros [H1 H2]; discriminate).
Qed.

Lemma persisted_startup_with_code
  (env : Env) (storage : gmap string string) (c : ascii) (code : string) :
  storage !! Persisted.ZIP_STORAGE_KEY = Some (String c code) ->
  events (Persisted.useEffect env (Persisted.initial storage))
  = Persisted.SetZipCode (String c code) :: Persisted.SetUseZipCode true
    :: events (Persisted.handleZipCodeSubmit env "" (Some (String c code))).
Proof.
  intros Hsaved. unfold Persisted.useEffect.
  cbn [Persisted.localStorage Persisted.initial Persisted.zipCode].
  rewrite Hsaved. cbn [truthy default].
  destruct (Persisted.handleZipCodeSubmit env "" (Some (String c code))) as [log result].
  reflexivity.
Qed.

(** X6.  Saving and restarting.  After a submission that succeeded with a
    non-empty code, the next startup, in whatever world, makes no
    geolocation request: it fills the form with that code, switches manual
    entry on and submits that code. *)
Theorem restart_submits_saved_code
  (env env' : Env) (st : Persisted.State) (zipCode : string) (overrideZip : option string) :
  cycle_fails env (js_or overrideZip zipCode) = false ->
  js_or overrideZip zipCode <> "" ->
  let st' := Persisted.run st (events (Persisted.handleZipCodeSubmit env zipCode overrideZip)) in
  let evs := events (Persisted.useEffect env' (Persisted.initial (Persisted.localStorage st'))) in
  evs = Persisted.SetZipCode (js_or overrideZip zipCode) :: Persisted.SetUseZipCode true
        :: events (Persisted.handleZipCodeSubmit env' "" (Some (js_or overrideZip zipCode)))
  /\ Count.geo evs = 0%nat
  /\ Count.zip evs = 1%nat.
Proof.
  intros Hok Hcode st' evs. subst evs st'.
  assert (Hsaved : Persisted.localStorage
                     (Persisted.run st
                        (events (Persisted.handleZipCodeSubmit env zipCode overrideZip)))
                   !! Persisted.ZIP_STORAGE_KEY
                   = Some (js_or overrideZip zipCode)).
  { unfold Persisted.handleZipCodeSubmit.
    revert Hok. generalize (js_or overrideZip zipCode) as code. intros code Hok.
    by_answers; try discriminate Hok; apply lookup_insert_eq. }
  revert Hsaved Hcode. generalize (js_or overrideZip zipCode) as code.
  intros [ | c code] Hsaved Hcode; [contradiction Hcode; reflexivity | ].
  rewrite (persisted_startup_with_code env' _ c code Hsaved).
  split; [reflexivity | ].
  unfold Persisted.handleZipCodeSubmit.
  assert (Hor : js_or (Some (String c code)) "" = String c code) by reflexivity.
  rewrite Hor. clear Hor Hsaved Hcode.
  generalize (String c code) as saved. intros saved.
  by_answers; split; reflexivity.
Qed.

Lemma restart_submits_saved_code_witness :
  let env := Scenario.world Scenario.found (Scenario.sun_answer "OK") in
  let env' := Scenario.world Rejected Rejected in
  let st' := Persisted.run (Persisted.initial ∅)
               (events (Persisted.handleZipCodeSubmit env "90210" None)) in
  Count.geo (events (Persisted.useEffect env' (Persisted.initial (Persisted.localStorage st'))))
  = 0%nat.
Proof.
  intros env env' st'.
  apply (restart_submits_saved_code env env' (Persisted.initial ∅) "90210" None).
  - reflexivity.
  - discriminate.
Defined.

(** X7.  Resetting and restarting.  After 'Use Location', whatever the outcome
    of its cycle, the next startup is a geolocation cycle: its first step
    is the geolocation request and it looks no code up. *)
Theorem restart_after_reset_asks_position (env env' : Env) (st : Persisted.State) :
  let st' := Persisted.run st (events (Persisted.handleReset env)) in
  let evs := events (Persisted.useEffect env' (Persisted.initial (Persisted.localStorage st'))) in
  evs = events (Persisted.getLocationAndSunData env')
  /\ head evs = Some Persisted.GeolocationRequest
  /\ Count.geo evs = 1%nat
  /\ Count.zip evs = 0%nat.
Proof.
  intros st' evs. subst evs st'.
  assert (Hstore : Persisted.localStorage
                     (Persisted.run st (events (Persisted.handleReset env)))
                   !! Persisted.ZIP_STORAGE_KEY = None).
  { assert (H : Persisted.localStorage
                  (Persisted.run st (events (Persisted.handleReset env)))
                = delete Persisted.ZIP_STORAGE_KEY (Persisted.localStorage st))
      by (by_position; reflexivity).
    rewrite H. apply lookup_delete_eq. }
  unfold Persisted.useEffect at 1 2 3 4.
  cbn [Persisted.localStorage Persisted.initial].
  rewrite Hstore. cbn [truthy].
  split; [reflexivity | ].
  clear Hstore. revert env'. intros world.
  unfold Persisted.getLocationAndSunData, Persisted.fetchSunData.
  destruct (geolocation world) as [latitude longitude | ]; cbn.
  - destruct (sun_service world latitude longitude) as [ | | [status results]]; cbn;
      try (destruct (String.eqb status "OK"); cbn); repeat split; reflexivity.
  - repeat split; reflexivity.
Qed.

(** ** Errors *)




(** ** Requests *)

(** X9.  No handler retries.  A submission looks the code up once, asks the
    sun service once if the lookup did not fail and not at all if it did,
    and never asks for the position; a geolocation cycle asks for the
    position once, asks the sun service once if there is a position, and
    never looks a code up. *)
Theorem one_request_per_service (env : Env) :
  (forall zip,
      let evs := events (Basic.handleZipCodeSubmit env zip) in
      Count.basic_zip evs = 1%nat /\ Count.basic_geo evs = 0%nat
      /\ Count.basic_sun evs = if lookup_fails (zip_service env zip) then 0%nat else 1%nat)
  /\ (forall zipCode overrideZip,
      let evs := events (Persisted.handleZipCodeSubmit env zipCode overrideZip) in
      Count.zip evs = 1%nat /\ Count.geo evs = 0%nat
      /\ Count.sun evs
         = (if lookup_fails (zip_service env (js_or overrideZip zipCode)) then 0%nat
            else 1%nat)
      /\ In (Persisted.ZipRequest (js_or overrideZip zipCode)) evs)
  /\ (let evs := events (Basic.getLocationAndSunData env) in
      Count.basic_geo evs = 1%nat /\ Count.basic_zip evs = 0%nat
      /\ Count.basic_sun evs
         = match geolocation env with Position _ _ => 1%nat | PositionError => 0%nat end)
  /\ (let evs := events (Persisted.getLocationAndSunData env) in
      Count.geo evs = 1%nat /\ Count.zip evs = 0%nat
      /\ Count.sun evs
         = match geolocation env with Position _ _ => 1%nat | PositionError => 0%nat end).
Proof.
  split; [ | split; [ | split]].
  - intros zip evs. subst evs. by_answers; repeat split; reflexivity.
  - intros zc ov evs. subst evs. unfold Persisted.handleZipCodeSubmit.
    generalize (js_or ov zc) as code. intros code.
    by_answers; repeat split; try reflexivity; cbn; auto.
  - intros evs. subst evs. by_position; repeat split; reflexivity.
  - intros evs. subst evs. by_position; repeat split; reflexivity.
Qed.

(** ** Loading *)



(** ** Dates that are not instants *)

Ltac by_clip :=
  repeat match goal with
         | |- context [Z.abs ?x <=? JsDate.maxTime] =>
             destruct (Z.leb_spec (Z.abs x) JsDate.maxTime)
         | H : context [Z.abs ?x <=? JsDate.maxTime] |- _ =>
             destruct (Z.leb_spec (Z.abs x) JsDate.maxTime)
         end.

Ltac not_valid :=
  match goal with
  | H : valid _ |- _ => destruct H as [? H]; cbn in H; discriminate H
  end.

(** X11.  An answer with status ['OK'] whose sunrise string the host cannot
    parse still counts as a success: the submission sets a schedule and
    clears the error, and in that schedule sunrise, civilDawn, wakeTime
    and toddlerBedTime are invalid dates, while civilDusk and the adult
    bedtime are what the sunset alone gives. *)
Theorem unparsable_sunrise_still_sets_schedule
  (env : Env) (zip : string) (place : ZipApi.Place) (others : list ZipApi.Place)
  (data : SunApi.Response) (st : Persisted.State) :
  zip_service env zip = Json {| ZipApi.places := Some (place :: others) |} ->
  sun_service env (parseFloat env (ZipApi.latitude place))
    (parseFloat env (ZipApi.longitude place)) = Json data ->
  SunApi.status data = "OK" ->
  Date_parse env (SunApi.sunrise (SunApi.results data)) = None ->
  let st' := Persisted.run st (events (Persisted.handleZipCodeSubmit env zip None)) in
  let sunsetTime := new_Date (Date_parse env (SunApi.sunset (SunApi.results data))) in
  Persisted.error st' = None
  /\ exists s, Persisted.schedule st' = Some s
     /\ getTime (Persisted.sunrise s) = None
     /\ getTime (Persisted.civilDawn s) = None
     /\ getTime (Persisted.wakeTime s) = None
     /\ getTime (Persisted.toddlerBedTime s) = None
     /\ Persisted.sunset s = sunsetTime
     /\ Persisted.civilDusk s = new_Date (JsDate.plus (getTime sunsetTime) (35 * 60000))
     /\ Persisted.adultBedTime s = new_Date (JsDate.plus (getTime sunsetTime) bedtime_offset).
Proof.
  intros Hzip Hsun Hstatus Hparse st' sunsetTime. subst st' sunsetTime.
  unfold Persisted.handleZipCodeSubmit, Persisted.fetchZipCodeLocation,
    Persisted.fetchSunData.
  assert (Hor : js_or None zip = zip) by reflexivity. rewrite Hor.
  rewrite Hzip; cbn. rewrite Hsun; cbn. rewrite Hstatus; cbn.
  split; [reflexivity | ].
  eexists. split; [reflexivity | ].
  rewrite Hparse. repeat split; reflexivity.
Qed.

Lemma unparsable_sunrise_still_sets_schedule_witness :
  let data := {| SunApi.status := "OK";
                 SunApi.results := {| SunApi.sunrise := "soon";
                                      SunApi.sunset := "2025-11-03T00:57:00+00:00" |} |} in
  let env := Scenario.world Scenario.found (Json data) in
  Persisted.error
    (Persisted.run (Persisted.initial ∅)
       (events (Persisted.handleZipCodeSubmit env "90210" None))) = None.
Proof.
  intros data env.
  apply (unparsable_sunrise_still_sets_schedule env "90210" Scenario.beverly_hills [] data
           (Persisted.initial ∅));
    reflexivity.
Defined.

(** X12.  Validity runs along the chain of derivations.  Whatever the two time
    values the dates are made from (NaN, out of range, or instants): if
    the toddler bedtime and the adult bedtime of the derived schedule are
    valid dates, then the seven dates are in order, and so are the six of
    the basic variant. *)
Theorem valid_ends_give_ordered_schedule (sunriseValue sunsetValue : JsDate.TimeValue) :
  let p := Persisted.deriveSchedule (new_Date sunriseValue) (new_Date sunsetValue) in
  let b := Basic.deriveSchedule (new_Date sunriseValue) (new_Date sunsetValue) in
  valid (Persisted.toddlerBedTime p) ->
  valid (Persisted.adultBedTime p) ->
  (JsDate.ltb (Persisted.toddlerBedTime p) (Persisted.wakeTime p) = true
   /\ JsDate.ltb (Persisted.wakeTime p) (Persisted.civilDawn p) = true
   /\ JsDate.ltb (Persisted.civilDawn p) (Persisted.sunrise p) = true
   /\ JsDate.ltb (Persisted.sunset p) (Persisted.civilDusk p) = true
   /\ JsDate.ltb (Persisted.civilDusk p) (Persisted.adultBedTime p) = true)
  /\ (JsDate.ltb (Basic.wakeTime b) (Basic.civilDawn b) = true
      /\ JsDate.ltb (Basic.civilDawn b) (Basic.sunrise b) = true
      /\ JsDate.ltb (Basic.sunset b) (Basic.civilDusk b) = true
      /\ JsDate.ltb (Basic.civilDusk b) (Basic.bedTime b) = true).
Proof.
  intros p b. subst p b.
  unfold Persisted.deriveSchedule, Basic.deriveSchedule, JsDate.new_Date, JsDate.ltb,
    JsDate.minus, JsDate.plus, JsDate.TimeClip, bedtime_offset.
  destruct sunriseValue as [s | ], sunsetValue as [t | ]; cbn;
    do 5 (by_clip; cbn);
    intros Hfirst Hlast; try not_valid;
    try (unfold JsDate.maxTime in *; lia);
    repeat split; apply Z.ltb_lt; lia.
Qed.

Lemma valid_ends_give_ordered_schedule_witness :
  let p := Persisted.deriveSchedule (new_Date (Some 1762092720000))
             (new_Date (Some 1762131420000)) in
  JsDate.ltb (Persisted.toddlerBedTime p) (Persisted.wakeTime p) = true.
Proof.
  intros p.
  apply (valid_ends_give_ordered_schedule (Some 1762092720000) (Some 1762131420000)).
  - eexists. reflexivity.
  - eexists. reflexivity.
Defined.

(** An invalid date is smaller than nothing and larger than nothing, so
    a schedule with an invalid date in it is not in order. *)
Lemma invalid_date_is_unordered (d e : Date) :
  getTime d = None -> JsDate.ltb d e = false /\ JsDate.ltb e d = false.
Proof.
  intros H. unfold JsDate.ltb. rewrite H. destruct (getTime e); split; reflexivity.
Qed.

(** ** What is on screen after a cycle *)

(** X14.  After a submission that throws, the panel shows the form with the
    message of the cause in its alert, the entered code still in the
    input, the button enabled exactly when that code has 5 characters,
    and below the form whatever schedule was on screen before. *)
Theorem view_after_throwing_submit (env : Env) (zip : string) :
  cycle_throws env zip = true ->
  (forall st : Basic.State,
      Basic.render (Basic.run st (events (Basic.handleZipCodeSubmit env zip)))
      = Basic.Panel
          (Some {| Basic.input_value := Basic.zipCode st;
                   Basic.submit_disabled :=
                     negb (Z.of_nat (String.length (Basic.zipCode st)) =? 5);
                   Basic.alert := Some (thrown_message env zip) |})
          (Basic.schedule st))
  /\ (forall (st : Persisted.State) zipCode overrideZip,
      js_or overrideZip zipCode = zip ->
      Persisted.render
        (Persisted.run st (events (Persisted.handleZipCodeSubmit env zipCode overrideZip)))
      = Persisted.Panel
          (Some {| Persisted.input_value := Persisted.zipCode st;
                   Persisted.submit_disabled :=
                     negb (Z.of_nat (String.length (Persisted.zipCode st)) =? 5);
                   Persisted.alert := Some (thrown_message env zip) |})
          (match Persisted.schedule st with
           | Some s =>
               Some {| Persisted.showing_times_for :=
                         if truthy (Some (Persisted.location st))
                         then Some (Persisted.location st) else None;
                       Persisted.rows := s |}
           | None => None
           end)).
Proof.
  unfold cycle_throws, sun_throws, thrown_message. intros Hthrows. split.
  - intros st. by_answers; first [discriminate Hthrows | reflexivity].
  - intros st zc ov Hcode. unfold Persisted.handleZipCodeSubmit. rewrite Hcode.
    by_answers; first [discriminate Hthrows | reflexivity].
Qed.

Lemma view_after_throwing_submit_witness :
  let env := Scenario.world Scenario.no_places (Scenario.sun_answer "OK") in
  let st := {| Basic.schedule := None; Basic.loading := false; Basic.error := None;
               Basic.zipCode := "00000"; Basic.useZipCode := true |} in
  Basic.render (Basic.run st (events (Basic.handleZipCodeSubmit env "00000")))
  = Basic.Panel
      (Some {| Basic.input_value := "00000"; Basic.submit_disabled := false;
               Basic.alert := Some invalid_zip_message |})
      None.
Proof.
  intros env st.
  apply (view_after_throwing_submit env "00000"). reflexivity.
Defined.

(** X15.  After a submission that succeeds, the panel shows the rows of the new
    schedule and no alert; the form stays on screen exactly when manual
    entry was on.  In the persisted variant the line 'Showing times for'
    is always there, with the label of the first place. *)
Theorem view_after_successful_submit
  (env : Env) (zip : string) (place : ZipApi.Place) (others : list ZipApi.Place)
  (data : SunApi.Response) :
  zip_service env zip = Json {| ZipApi.places := Some (place :: others) |} ->
  sun_service env (parseFloat env (ZipApi.latitude place))
    (parseFloat env (ZipApi.longitude place)) = Json data ->
  SunApi.status data = "OK" ->
  (forall st : Basic.State,
      Basic.render (Basic.run st (events (Basic.handleZipCodeSubmit env zip)))
      = Basic.Panel
          (if Basic.useZipCode st then
             Some {| Basic.input_value := Basic.zipCode st;
                     Basic.submit_disabled :=
                       negb (Z.of_nat (String.length (Basic.zipCode st)) =? 5);
                     Basic.alert := None |}
           else None)
          (Some (basic_schedule_of env data)))
  /\ (forall (st : Persisted.State) zipCode overrideZip,
      js_or overrideZip zipCode = zip ->
      Persisted.render
        (Persisted.run st (events (Persisted.handleZipCodeSubmit env zipCode overrideZip)))
      = Persisted.Panel
          (if Persisted.useZipCode st then
             Some {| Persisted.input_value := Persisted.zipCode st;
                     Persisted.submit_disabled :=
                       negb (Z.of_nat (String.length (Persisted.zipCode st)) =? 5);
                     Persisted.alert := None |}
           else None)
          (Some {| Persisted.showing_times_for := Some (label_of place);
                   Persisted.rows := persisted_schedule_of env data |})).
Proof.
  intros Hzip Hsun Hstatus. split.
  - intros st.
    unfold Basic.handleZipCodeSubmit, Basic.fetchZipCodeLocation, Basic.fetchSunData.
    rewrite Hzip; cbn. rewrite Hsun; cbn. rewrite Hstatus; cbn. reflexivity.
  - intros st zc ov Hcode.
    unfold Persisted.handleZipCodeSubmit, Persisted.fetchZipCodeLocation,
      Persisted.fetchSunData.
    rewrite Hcode, Hzip; cbn. rewrite Hsun; cbn. rewrite Hstatus; cbn.
    clear Hzip Hsun. destruct place as [lat lng [ | c name] region]; reflexivity.
Qed.

Lemma view_after_successful_submit_witness :
  let env := Scenario.world Scenario.found (Scenario.sun_answer "OK") in
  Persisted.render
    (Persisted.run (Persisted.initial ∅)
       (events (Persisted.handleZipCodeSubmit env "90210" None)))
  = Persisted.Panel None
      (Some {| Persisted.showing_times_for := Some "Beverly Hills, California";
               Persisted.rows :=
                 Persisted.deriveSchedule (JsDate.instant 1762092720000)
                   (JsDate.instant 1762131420000) |}).
Proof.
  intros env.
  apply (view_after_successful_submit env "90210" Scenario.beverly_hills []
           {| SunApi.status := "OK";
              SunApi.results := {| SunApi.sunrise := "2025-11-02T14:12:00+00:00";
                                   SunApi.sunset := "2025-11-03T00:57:00+00:00" |} |});
    reflexivity.
Defined.

(** X16.  Startup without a position (or with a sun-data request that throws):
    the first thing on screen after the loading card is the form, with an
    empty input, a disabled button and the message of the cause, and no
    rows.  In the persisted variant this is the startup with no saved code
    in storage. *)
Theorem view_after_throwing_startup (env : Env) :
  geolocation_cycle_throws env = true ->
  Basic.render Basic.initial = Basic.LoadingCard
  /\ Basic.render (Basic.run Basic.initial (events (Basic.useEffect env)))
     = Basic.Panel
         (Some {| Basic.input_value := ""; Basic.submit_disabled := true;
                  Basic.alert := Some (geolocation_thrown_message env) |})
         None
  /\ (forall storage : gmap string string,
      storage !! Persisted.ZIP_STORAGE_KEY = None ->
      Persisted.render (Persisted.initial storage) = Persisted.LoadingCard
      /\ Persisted.render
           (Persisted.run (Persisted.initial storage)
              (events (Persisted.useEffect env (Persisted.initial storage))))
         = Persisted.Panel
             (Some {| Persisted.input_value := ""; Persisted.submit_disabled := true;
                      Persisted.alert := Some (geolocation_thrown_message env) |})
             None).
Proof.
  intros Hthrows. split; [reflexivity | split].
  - by_position; first [discriminate Hthrows | reflexivity].
  - intros storage Hnone. split; [reflexivity | ].
    unfold Persisted.useEffect.
    cbn [Persisted.localStorage Persisted.initial]. rewrite Hnone. cbn [truthy].
    by_position; first [discriminate Hthrows | reflexivity].
Qed.

Lemma view_after_throwing_startup_witness :
  let env := {| zip_service := fun _ => Scenario.found;
                sun_service := fun _ _ => Scenario.sun_answer "OK";
                geolocation := PositionError;
                parseFloat := fun _ => Scenario.origin;
                Date_parse := Scenario.parse |} in
  Basic.render (Basic.run Basic.initial (events (Basic.useEffect env)))
  = Basic.Panel
      (Some {| Basic.input_value := ""; Basic.submit_disabled := true;
               Basic.alert := Some location_denied_message |})
      None.
Proof.
  intros env.
  apply (view_after_throwing_startup env). reflexivity.
Defined.

(** ** What the cycles never touch *)

(** X17.  Whatever the world answers: a submission leaves the entered code and
    the manual-entry flag as they were, removes nothing from storage and
    ends with loading released; a geolocation cycle leaves the entered
    code and storage as they were and ends with loading released. *)
Theorem cycles_frame (env : Env) :
  (forall (st : Basic.State) zip,
      let st' := Basic.run st (events (Basic.handleZipCodeSubmit env zip)) in
      Basic.zipCode st' = Basic.zipCode st
      /\ Basic.useZipCode st' = Basic.useZipCode st
      /\ Basic.loading st' = false)
  /\ (forall (st : Persisted.State) zipCode overrideZip,
      let st' := Persisted.run st
                   (events (Persisted.handleZipCodeSubmit env zipCode overrideZip)) in
      Persisted.zipCode st' = Persisted.zipCode st
      /\ Persisted.useZipCode st' = Persisted.useZipCode st
      /\ Persisted.loading st' = false
      /\ (forall key value, Persisted.localStorage st !! key = Some value ->
          key <> Persisted.ZIP_STORAGE_KEY ->
          Persisted.localStorage st' !! key = Some value)
      /\ (forall key, is_Some (Persisted.localStorage st !! key) ->
          is_Some (Persisted.localStorage st' !! key)))
  /\ (forall st : Basic.State,
      let st' := Basic.run st (events (Basic.getLocationAndSunData env)) in
      Basic.zipCode st' = Basic.zipCode st /\ Basic.loading st' = false)
  /\ (forall st : Persisted.State,
      let st' := Persisted.run st (events (Persisted.getLocationAndSunData env)) in
      Persisted.zipCode st' = Persisted.zipCode st
      /\ Persisted.loading st' = false
      /\ Persisted.localStorage st' = Persisted.localStorage st).
Proof.
  split; [ | split; [ | split]].
  - intros st zip st'. subst st'. by_answers; repeat split; reflexivity.
  - intros st zc ov st'. subst st'. unfold Persisted.handleZipCodeSubmit.
    generalize (js_or ov zc) as code. intros code.
    by_answers; (split; [reflexivity | split; [reflexivity | split; [reflexivity | ]]]);
      (split; [intros key value Hkey Hne | intros key Hkey]);
      try assumption.
    all: try (rewrite lookup_insert_ne by congruence; exact Hkey).
    all: destruct (decide (key = Persisted.ZIP_STORAGE_KEY)) as [-> | Hne];
      [rewrite lookup_insert_eq; eauto | rewrite lookup_insert_ne by congruence; exact Hkey].
  - intros st st'. subst st'. by_position; split; reflexivity.
  - intros st st'. subst st'. by_position; repeat split; reflexivity.
Qed.

(** X18.  Startup with a saved code whose cycle succeeds ends like typing that
    code and submitting it: the schedule of the answer, no error, loading
    released, the code in the input, manual entry on (so the form stays
    above the rows), the label of the place, and storage as it was. *)
Theorem startup_with_saved_code_state
  (env : Env) (storage : gmap string string) (code : string)
  (place : ZipApi.Place) (others : list ZipApi.Place) (data : SunApi.Response) :
  storage !! Persisted.ZIP_STORAGE_KEY = Some code ->
  code <> "" ->
  zip_service env code = Json {| ZipApi.places := Some (place :: others) |} ->
  sun_service env (parseFloat env (ZipApi.latitude place))
    (parseFloat env (ZipApi.longitude place)) = Json data ->
  SunApi.status data = "OK" ->
  Persisted.run (Persisted.initial storage)
    (events (Persisted.useEffect env (Persisted.initial storage)))
  = {| Persisted.schedule := Some (persisted_schedule_of env data);
       Persisted.loading := false;
       Persisted.error := None;
       Persisted.zipCode := code;
       Persisted.useZipCode := true;
       Persisted.location := label_of place;
       Persisted.localStorage := storage |}.
Proof.
  intros Hsaved Hcode Hzip Hsun Hstatus.
  destruct code as [ | c code]; [contradiction Hcode; reflexivity | ].
  rewrite (persisted_startup_with_code env storage c code Hsaved).
  unfold Persisted.handleZipCodeSubmit, Persisted.fetchZipCodeLocation,
    Persisted.fetchSunData.
  assert (Hor : js_or (Some (String c code)) "" = String c code) by reflexivity.
  rewrite Hor, Hzip; cbn. rewrite Hsun; cbn. rewrite Hstatus; cbn.
  rewrite (insert_id storage _ _ Hsaved). reflexivity.
Qed.

Lemma startup_with_saved_code_state_witness :
  let env := Scenario.world Scenario.found (Scenario.sun_answer "OK") in
  let storage : gmap string string := {[ Persisted.ZIP_STORAGE_KEY := "90210" ]} in
  Persisted.run (Persisted.initial storage)
    (events (Persisted.useEffect env (Persisted.initial storage)))
  = {| Persisted.schedule :=
         Some (Persisted.deriveSchedule (JsDate.instant 1762092720000)
                 (JsDate.instant 1762131420000));
       Persisted.loading := false;
       Persisted.error := None;
       Persisted.zipCode := "90210";
       Persisted.useZipCode := true;
       Persisted.location := "Beverly Hills, California";
       Persisted.localStorage := storage |}.
Proof.
  intros env storage.
  apply (startup_with_saved_code_state env storage "90210" Scenario.beverly_hills []
           {| SunApi.status := "OK";
              SunApi.results := {| SunApi.sunrise := "2025-11-02T14:12:00+00:00";
                                   SunApi.sunset := "2025-11-03T00:57:00+00:00" |} |}).
  - vm_compute. reflexivity.
  - discriminate.
  - reflexivity.
  - reflexivity.
  - reflexivity.
Defined.

(** ** Exact or invalid *)

(** X13.  Whatever the two time values the dates are made from, a derived date
    is never rounded or clamped: it is the invalid date, or it holds
    exactly the offset of the rule from the instant it is derived from
    (and that instant is then valid too). *)
Theorem derived_dates_exact_or_invalid (sunriseValue sunsetValue : JsDate.TimeValue) :
  let p := Persisted.deriveSchedule (new_Date sunriseValue) (new_Date sunsetValue) in
  (forall c, getTime (Persisted.civilDawn p) = Some c ->
             getTime (Persisted.sunrise p) = Some (c + minutes 35))
  /\ (forall w, getTime (Persisted.wakeTime p) = Some w ->
                getTime (Persisted.civilDawn p) = Some (w + minutes 45))
  /\ (forall b, getTime (Persisted.toddlerBedTime p) = Some b ->
                getTime (Persisted.wakeTime p) = Some (b + minutes 660))
  /\ (forall c, getTime (Persisted.civilDusk p) = Some c ->
                getTime (Persisted.sunset p) = Some (c - minutes 35))
  /\ (forall b, getTime (Persisted.adultBedTime p) = Some b ->
                getTime (Persisted.sunset p) = Some (b - minutes 150)).
Proof.
  intros p. subst p.
  unfold Persisted.deriveSchedule, JsDate.new_Date, JsDate.minus, JsDate.plus,
    JsDate.TimeClip, bedtime_offset, minutes.
  destruct sunriseValue as [s | ], sunsetValue as [t | ]; cbn;
    do 5 (by_clip; cbn);
    repeat split; intros x Hx; try discriminate Hx;
    injection Hx as <-; f_equal; lia.
Qed.

(** ** The two variants, cycle by cycle *)

(** X19.  The basic variant is the persisted one without the location label and
    without storage: dropping the [setLocation] and [localStorage] steps
    from a cycle of the persisted variant, and the toddler bedtime from
    its schedule, gives the cycle of the basic variant, step for step, for
    submissions and for geolocation cycles alike. *)
Theorem variants_cycles_alike (env : Env) :
  (forall zipCode overrideZip,
      omap shared_event (events (Persisted.handleZipCodeSubmit env zipCode overrideZip))
      = events (Basic.handleZipCodeSubmit env (js_or overrideZip zipCode)))
  /\ omap shared_event (events (Persisted.getLocationAndSunData env))
     = events (Basic.getLocationAndSunData env).
Proof.
  split.
  - intros zc ov. unfold Persisted.handleZipCodeSubmit.
    generalize (js_or ov zc) as code. intros code.
    by_answers; reflexivity.
  - by_position; reflexivity.
Qed.

Lemma failing_geolocation_keeps_schedule_witness :
  let env := Scenario.world Scenario.found Rejected in
  let shown := Basic.deriveSchedule (JsDate.instant 1762092720000) (JsDate.instant 1762131420000) in
  let st := {| Basic.schedule := Some shown; Basic.loading := true; Basic.error := None;
               Basic.zipCode := ""; Basic.useZipCode := false |} in
  Basic.schedule (Basic.run st (events (Basic.getLocationAndSunData env))) = Some shown.
Proof.
  intros env shown st.
  apply (failing_geolocation_keeps_schedule env). reflexivity.
Defined.

Lemma startup_ignores_empty_code_witness :
  let env := Scenario.world Scenario.found (Scenario.sun_answer "OK") in
  let st := Persisted.initial {[ Persisted.ZIP_STORAGE_KEY := "" ]} in
  Persisted.useEffect env st = Persisted.getLocationAndSunData env.
Proof.
  intros env st.
  apply (startup_ignores_empty_code env st).
  vm_compute. reflexivity.
Defined.
